(** * Awesome-Story-Visualization: the README generator of [main.py]

    A shallow embedding of the class [AwesomeReadmeGenerator] and proofs
    about its date parser, its per-category sort, the rendering of entries
    and sections, the assembly of the document and the loader.

    Python values are embedded as follows.
    - A [str] is the list of its Unicode code points.
    - A value produced by [json.load] is a [json]; a Python [dict] is an
      association list in insertion order, read through the first binding
      of a key.
    - A call that may raise returns a [result]; [try]/[except] is a match
      on the exception class.
    - [self.data] is threaded through the methods that mutate it, and the
      file system and standard output are threaded through the methods
      that touch them. *)

From Stdlib Require Import List ZArith NArith Lia Bool String Ascii.
From Stdlib Require Import DecimalString SpecFloat Permutation Sorted.
Import ListNotations.

Set Warnings "-register-all,-notation-for-abbreviation".

Local Open Scope Z_scope.

(** ** Strings *)

Definition str := list N.

(** An ASCII literal as a Python string. *)
Definition u (s : string) : str := map N_of_ascii (list_ascii_of_string s).

Definition str_eqb (a b : str) : bool :=
  if list_eq_dec N.eq_dec a b then true else false.

(** [sep.join(l)] for a list of strings. *)
Fixpoint join (sep : str) (l : list str) : str :=
  match l with
  | [] => []
  | [x] => x
  | x :: r => x ++ sep ++ join sep r
  end.

Definition nl : str := [10%N].

(** ** Values loaded from JSON *)

Inductive json :=
| JNull
| JBool (b : bool)
| JInt (n : Z)
| JFloat (f : spec_float)
| JStr (s : str)
| JArr (l : list json)
| JObj (d : list (str * json)).

Definition dict := list (str * json).

Fixpoint lookup (d : dict) (k : str) : option json :=
  match d with
  | [] => None
  | (k', v) :: r => if str_eqb k' k then Some v else lookup r k
  end.

(** Replaces the value held under [k]; the list object stored there is the
    one that [list.sort] reorders in place. *)
Fixpoint store (d : dict) (k : str) (v : json) : dict :=
  match d with
  | [] => []
  | (k', w) :: r => if str_eqb k' k then (k', v) :: r else (k', w) :: store r k v
  end.

(** ** Exceptions *)

Inductive exn :=
| FileNotFoundError
| IsADirectoryError
| JSONDecodeError
| ValueError
| TypeError
| AttributeError
| KeyError.

Inductive result (A : Type) :=
| Ok (a : A)
| Raise (e : exn).
Arguments Ok {A} a.
Arguments Raise {A} e.

Definition bind {A B} (r : result A) (k : A -> result B) : result B :=
  match r with
  | Ok a => k a
  | Raise e => Raise e
  end.

Notation "x <- e ;; k" := (bind e (fun x => k))
  (at level 61, e at next level, right associativity).

Fixpoint mapM {A B} (f : A -> result B) (l : list A) : result (list B) :=
  match l with
  | [] => Ok []
  | x :: r => y <- f x ;; ys <- mapM f r ;; Ok (y :: ys)
  end.

(** ** Builtins *)

(** [d.get(k, default)] on a dict. *)
Definition dict_get (d : dict) (k : str) (default : json) : json :=
  match lookup d k with
  | Some x => x
  | None => default
  end.

(** [v.get(k, default)]: only a [dict] has the method. *)
Definition py_get (v : json) (k : str) (default : json) : result json :=
  match v with
  | JObj d => Ok (dict_get d k default)
  | _ => Raise AttributeError
  end.

(** [v[k]] for a string key. *)
Definition py_getitem (v : json) (k : str) : result json :=
  match v with
  | JObj d => match lookup d k with Some x => Ok x | None => Raise KeyError end
  | _ => Raise TypeError
  end.

(** [bool(v)], the test of [if v:] and [if not v:]. *)
Definition truthy (v : json) : bool :=
  match v with
  | JNull => false
  | JBool b => b
  | JInt n => negb (n =? 0)
  | JFloat (S754_zero _) => false
  | JFloat _ => true
  | JStr s => match s with [] => false | _ => true end
  | JArr l => match l with [] => false | _ => true end
  | JObj d => match d with [] => false | _ => true end
  end.

Definition str_of_int (n : Z) : str := u (NilZero.string_of_int (Z.to_int n)).

(** [sep.join(v)]: iterating a string yields its characters, iterating a
    dict its keys; every item must be a string. *)
Definition as_str (v : json) : result str :=
  match v with
  | JStr s => Ok s
  | _ => Raise TypeError
  end.

Definition py_join (sep : str) (v : json) : result str :=
  match v with
  | JArr l => items <- mapM as_str l ;; Ok (join sep items)
  | JStr s => Ok (join sep (map (fun c => [c]) s))
  | JObj d => Ok (join sep (map fst d))
  | _ => Raise TypeError
  end.

(** ** Dates: [datetime.strptime(s, "%Y-%m-%d")] *)

(** A [datetime] whose time of day is midnight, as [strptime] builds from a
    format without time directives and as [datetime.min] is. *)
Record datetime := mkdate { year : Z; month : Z; day : Z }.

Definition datetime_min : datetime := mkdate 1 1 1.

(** [a < b] on naive datetimes compares the fields in order. *)
Definition date_ltb (a b : datetime) : bool :=
  (year a <? year b)
  || ((year a =? year b)
      && ((month a <? month b)
          || ((month a =? month b) && (day a <? day b)))).

Definition date_eqb (a b : datetime) : bool :=
  (year a =? year b) && (month a =? month b) && (day a =? day b).

(** First code points of the runs of ten decimal digits (category Nd) of
    Unicode 14.0; [\d] of a [str] pattern matches exactly these characters
    and [int] reads each as its offset in its run. *)
Definition decimal_runs : list N :=
  [48; 1632; 1776; 1984; 2406; 2534; 2662; 2790; 2918; 3046; 3174; 3302;
   3430; 3558; 3664; 3792; 3872; 4160; 4240; 6112; 6160; 6470; 6608; 6784;
   6800; 6992; 7088; 7232; 7248; 42528; 43216; 43264; 43472; 43504; 43600;
   44016; 65296; 66720; 68912; 69734; 69872; 69942; 70096; 70384; 70736;
   70864; 71248; 71360; 71472; 71904; 72016; 72784; 73040; 73120; 92768;
   92864; 93008; 120782; 120792; 120802; 120812; 120822; 123200; 123632;
   125264; 130032]%N.

Definition decimal (c : N) : option Z :=
  match find (fun s => (s <=? c)%N && (c <? s + 10)%N) decimal_runs with
  | Some s => Some (Z.of_N (c - s))
  | None => None
  end.

(** The fragment of regular expressions that the format compiles to. *)
Inductive group := GY | Gm | Gd.

Inductive re :=
| Lit (c : N)
| Rng (lo hi : N)
| Dig
| Cat (a b : re)
| Alt (a b : re)
| Grp (g : group) (a : re).

(** Backtracking match at the start of [s]: every way to match, in the
    order the engine tries them, each with its captures and the rest of
    the input. *)
Fixpoint rmatch (r : re) (s : str) : list (list (group * str) * str) :=
  match r with
  | Lit c =>
      match s with
      | x :: t => if (x =? c)%N then [([], t)] else []
      | [] => []
      end
  | Rng lo hi =>
      match s with
      | x :: t => if (lo <=? x)%N && (x <=? hi)%N then [([], t)] else []
      | [] => []
      end
  | Dig =>
      match s with
      | x :: t => match decimal x with Some _ => [([], t)] | None => [] end
      | [] => []
      end
  | Cat a b =>
      flat_map (fun m1 =>
                  map (fun m2 => (fst m1 ++ fst m2, snd m2)) (rmatch b (snd m1)))
               (rmatch a s)
  | Alt a b => rmatch a s ++ rmatch b s
  | Grp g a =>
      map (fun m => ((g, firstn (List.length s - List.length (snd m)) s) :: fst m, snd m))
          (rmatch a s)
  end.

Definition ch (s : string) : N :=
  match s with
  | String a _ => N_of_ascii a
  | EmptyString => 0%N
  end.

(** [(?P<Y>\d\d\d\d)] *)
Definition re_Y : re := Grp GY (Cat Dig (Cat Dig (Cat Dig Dig))).

(** [(?P<m>1[0-2]|0[1-9]|[1-9])] *)
Definition re_m : re :=
  Grp Gm (Alt (Cat (Lit (ch "1")) (Rng (ch "0") (ch "2")))
         (Alt (Cat (Lit (ch "0")) (Rng (ch "1") (ch "9")))
              (Rng (ch "1") (ch "9")))).

(** [(?P<d>3[0-1]|[1-2]\d|0[1-9]|[1-9]| [1-9])] *)
Definition re_d : re :=
  Grp Gd (Alt (Cat (Lit (ch "3")) (Rng (ch "0") (ch "1")))
         (Alt (Cat (Rng (ch "1") (ch "2")) Dig)
         (Alt (Cat (Lit (ch "0")) (Rng (ch "1") (ch "9")))
         (Alt (Rng (ch "1") (ch "9"))
              (Cat (Lit (ch " ")) (Rng (ch "1") (ch "9"))))))).

(** The pattern of ["%Y-%m-%d"]. *)
Definition format_regex : re :=
  Cat re_Y (Cat (Lit (ch "-")) (Cat re_m (Cat (Lit (ch "-")) re_d))).

Fixpoint capture (g : group) (caps : list (group * str)) : str :=
  match caps with
  | [] => []
  | (g', s) :: r =>
      match g, g' with
      | GY, GY | Gm, Gm | Gd, Gd => s
      | _, _ => capture g r
      end
  end.

Fixpoint digits_value (acc : Z) (s : str) : result Z :=
  match s with
  | [] => Ok acc
  | c :: t =>
      match decimal c with
      | Some v => digits_value (10 * acc + v) t
      | None => Raise ValueError
      end
  end.

Fixpoint skip_spaces (s : str) : str :=
  match s with
  | c :: t => if (c =? ch " ")%N then skip_spaces t else s
  | [] => []
  end.

(** [int(s)] on what a group can capture: decimal digits after optional
    blanks. *)
Definition py_int (s : str) : result Z :=
  match skip_spaces s with
  | [] => Raise ValueError
  | t => digits_value 0 t
  end.

Definition is_leap (y : Z) : bool :=
  (y mod 4 =? 0) && (negb (y mod 100 =? 0) || (y mod 400 =? 0)).

Definition days_in_month (y m : Z) : Z :=
  if m =? 2 then (if is_leap y then 29 else 28)
  else if (m =? 4) || (m =? 6) || (m =? 9) || (m =? 11) then 30
  else 31.

(** The constructor [datetime(year, month, day)] with its range checks. *)
Definition make_datetime (y m d : Z) : result datetime :=
  if negb ((1 <=? y) && (y <=? 9999)) then Raise ValueError
  else if negb ((1 <=? m) && (m <=? 12)) then Raise ValueError
  else if negb ((1 <=? d) && (d <=? days_in_month y m)) then Raise ValueError
  else Ok (mkdate y m d).

Definition strptime (date_string : json) : result datetime :=
  match date_string with
  | JStr s =>
      match rmatch format_regex s with
      | [] => Raise ValueError
      | (caps, rest) :: _ =>
          match rest with
          | _ :: _ => Raise ValueError
          | [] =>
              y <- py_int (capture GY caps) ;;
              m <- py_int (capture Gm caps) ;;
              d <- py_int (capture Gd caps) ;;
              make_datetime y m d
          end
      end
  | _ => Raise TypeError
  end.

(** ** [AwesomeReadmeGenerator._parse_date] *)

Definition _parse_date (date_str : json) : result datetime :=
  match strptime date_str with
  | Ok d => Ok d
  | Raise ValueError | Raise TypeError => Ok datetime_min
  | Raise e => Raise e
  end.

(** ** Sorting: [list.sort(key=..., reverse=True)]

    The sort is stable also under [reverse=True]: it puts the items in
    descending order of their keys and keeps the items whose keys compare
    equal in the order they had.  The keys are computed first, one call per
    item in list order, and an exception of the key function leaves the
    list as it was. *)

Fixpoint insert_desc {A} (k : datetime) (x : A) (l : list (datetime * A))
  : list (datetime * A) :=
  match l with
  | [] => [(k, x)]
  | (k', y) :: r =>
      if date_ltb k k' then (k', y) :: insert_desc k x r
      else (k, x) :: (k', y) :: r
  end.

Fixpoint sort_desc {A} (l : list (datetime * A)) : list (datetime * A) :=
  match l with
  | [] => []
  | (k, x) :: r => insert_desc k x (sort_desc r)
  end.

(** The key function of the sort, [lambda x: self._parse_date(x.get("date"))]. *)
Definition sort_key (x : json) : result datetime :=
  d <- py_get x (u "date") JNull ;;
  _parse_date d.

Definition keyed (x : json) : result (datetime * json) :=
  k <- sort_key x ;; Ok (k, x).

(** [entries.sort(key=sort_key, reverse=True)] on the items of a list. *)
Definition sort_entries (entries : list json) : result (list json) :=
  ks <- mapM keyed entries ;;
  Ok (map snd (sort_desc ks)).

(** The method [sort] exists on lists only. *)
Definition py_sort (entries : json) : result json :=
  match entries with
  | JArr l => s <- sort_entries l ;; Ok (JArr s)
  | _ => Raise AttributeError
  end.

(** ** The file system and standard output *)

Inductive node :=
| Directory
| File (text : str).

Record world := mkworld {
  fs : str -> option node;
  stdout : list str
}.

(** [print(line)] *)
Definition print (line : str) (w : world) : world :=
  mkworld (fs w) (stdout w ++ [line]).

(** [with open(path, "w", encoding="utf-8") as f: f.write(text)] *)
Definition write_file (path text : str) (w : world) : result unit * world :=
  match fs w path with
  | Some Directory => (Raise IsADirectoryError, w)
  | _ =>
      (Ok tt,
       mkworld (fun p => if str_eqb p path then Some (File text) else fs w p)
               (stdout w))
  end.

(** ** Methods that mutate [self.data] *)

Definition M (A : Type) : Type := json -> result A * json.

Definition ret {A} (a : A) : M A := fun data => (Ok a, data).

Definition lift {A} (r : result A) : M A := fun data => (r, data).

Definition bindM {A B} (m : M A) (k : A -> M B) : M B :=
  fun data =>
    match m data with
    | (Ok a, data') => k a data'
    | (Raise e, data') => (Raise e, data')
    end.

Notation "x <~ e ;; k" := (bindM e (fun x => k))
  (at level 61, e at next level, right associativity).

(** [self.data.get(key, [])] *)
Definition data_get (key : str) : M json :=
  fun data => (py_get data key (JArr []), data).

(** The list read from [self.data] under [key] is stored there, so that
    sorting it in place changes what [self.data] holds under [key]. *)
Definition data_sort (key : str) (entries : json) : M json :=
  fun data =>
    match py_sort entries with
    | Raise e => (Raise e, data)
    | Ok sorted =>
        (Ok sorted,
         match data with
         | JObj d => JObj (store d key sorted)
         | _ => data
         end)
    end.

(** ** The generator *)

Definition arxiv_badge (link : str) : str :=
  u "[![arXiv](https://img.shields.io/badge/arXiv-Paper-b31b1b.svg)]("
    ++ link ++ u ")".

Definition github_badge (link : str) : str :=
  u "[![GitHub](https://img.shields.io/badge/GitHub-Repo-181717.svg?logo=github)]("
    ++ link ++ u ")".

Definition quote : str := [34%N].

Definition _generate_intro : str :=
  u "<h1 align=" ++ quote ++ u "center" ++ quote
    ++ u ">Awesome Story Visualization</h1>" ++ nl ++ nl
    ++ u "A curated list of resources, papers, and benchmarks focused on "
    ++ u "**Story Visualization**." ++ nl ++ nl
    ++ u "Entries are sorted by date (newest first)." ++ nl ++ nl
    ++ u "If you want to contribute, please edit the `citations.json` file, "
    ++ u "run the generator script, and create a pull request." ++ nl ++ nl
    ++ u "If you are looking for Storytelling, text based, take a look at [Awesome-Story-Generation](https://github.com/yingpengma/Awesome-Story-Generation)."
    ++ nl ++ nl
    ++ u "---" ++ nl.

Record generator := mkgen {
  json_path : str;
  output_path : str;
  data : json
}.

Section Generator.

(** [str(v)] of a float, a list or a dict, as produced by their [repr]. *)
Variable py_repr : json -> str.

(** [json.loads(text)], raising [JSONDecodeError] on malformed text. *)
Variable json_loads : str -> result json.

(** A replacement field [{v}] of an f-string, which is [str(v)]. *)
Definition py_str (v : json) : str :=
  match v with
  | JStr s => s
  | JNull => u "None"
  | JBool true => u "True"
  | JBool false => u "False"
  | JInt n => str_of_int n
  | _ => py_repr v
  end.

Definition _load_data (path : str) (w : world) : result json :=
  match fs w path with
  | None => Raise FileNotFoundError
  | Some Directory => Raise IsADirectoryError
  | Some (File text) => json_loads text
  end.

Definition __init__ (json_path output_path : str) (w : world)
  : result generator :=
  data <- _load_data json_path w ;;
  Ok (mkgen json_path output_path data).

Definition _generate_badges (entry : json) : result str :=
  let badges := [] in
  arxiv <- py_get entry (u "arxiv") JNull ;;
  badges <- (if truthy arxiv
             then link <- py_getitem entry (u "arxiv") ;;
                  Ok (badges ++ [arxiv_badge (py_str link)])
             else Ok badges) ;;
  github <- py_get entry (u "github") JNull ;;
  badges <- (if truthy github
             then link <- py_getitem entry (u "github") ;;
                  Ok (badges ++ [github_badge (py_str link)])
             else Ok badges) ;;
  Ok (join (u " ") badges).

Definition _format_entry (entry : json) : result str :=
  title <- py_get entry (u "title") (JStr (u "Untitled")) ;;
  url <- py_get entry (u "url") (JStr (u "#")) ;;
  venue <- py_get entry (u "venue") (JStr (u "Preprint")) ;;
  kw <- py_get entry (u "keywords") (JArr []) ;;
  keywords <- py_join (u ", ") kw ;;
  badges <- _generate_badges entry ;;
  let line := u "**" ++ py_str title ++ u "** <br> [`" ++ py_str venue
                ++ u "`](" ++ py_str url ++ u ") " ++ badges in
  let line := if truthy (JStr keywords)
              then line ++ u " <br> _Keywords: " ++ keywords ++ u "_"
              else line in
  let line := line ++ u " <br> <br> " in
  Ok line.

(** The items of a list in a [for] loop; the other values are not reached
    with a list method behind them. *)
Definition items (v : json) : list json :=
  match v with
  | JArr l => l
  | _ => []
  end.

Definition _generate_section (title key : str) : M str :=
  entries <~ data_get key ;;
  if negb (truthy entries) then ret []
  else
    entries <~ data_sort key entries ;;
    let section := [u "## " ++ title ++ nl] in
    blocks <~ lift (mapM _format_entry (items entries)) ;;
    let section := section ++ blocks in
    ret (join nl section ++ nl).

(** The text that [generate] writes. *)
Definition final_markdown : M str :=
  let content := [] in
  let content := content ++ [_generate_intro] in
  s <~ _generate_section (u "Papers") (u "papers") ;;
  let content := content ++ [s] in
  s <~ _generate_section (u "Benchmarks") (u "benchmarks") ;;
  let content := content ++ [s] in
  s <~ _generate_section (u "Datasets") (u "datasets") ;;
  let content := content ++ [s] in
  ret (join nl content).

Definition set_data (self : generator) (d : json) : generator :=
  mkgen (json_path self) (output_path self) d.

Definition generate (self : generator) (w : world)
  : result unit * generator * world :=
  let w := print (u "Reading from " ++ json_path self ++ u "...") w in
  match final_markdown (data self) with
  | (Raise e, d) => (Raise e, set_data self d, w)
  | (Ok text, d) =>
      match write_file (output_path self) text w with
      | (Raise e, w) => (Raise e, set_data self d, w)
      | (Ok _, w) =>
          let w := print (u "Successfully generated " ++ output_path self
                            ++ u " with sorted entries!") w in
          (Ok tt, set_data self d, w)
      end
  end.

(** The script: construct the generator, then generate. *)
Definition run (json_path output_path : str) (w : world)
  : result unit * world :=
  match __init__ json_path output_path w with
  | Raise e => (Raise e, w)
  | Ok self => let '(r, _, w) := generate self w in (r, w)
  end.

Definition main (w : world) : result unit * world :=
  run (u "citations.json") (u "README.md") w.

End Generator.

(** * Proofs *)

(** ** The order on dates *)

Ltac date_cases :=
  unfold date_ltb, date_eqb; simpl;
  repeat match goal with
         | |- context [?a <? ?b] => destruct (Z.ltb_spec a b)
         | |- context [?a =? ?b] => destruct (Z.eqb_spec a b)
         | H : context [?a <? ?b] |- _ => destruct (Z.ltb_spec a b)
         | H : context [?a =? ?b] |- _ => destruct (Z.eqb_spec a b)
         end;
  simpl in *; try congruence; try lia.

Lemma date_ltb_irrefl (a : datetime) : date_ltb a a = false.
Proof. destruct a. date_cases. Qed.

Lemma date_eqb_eq (a b : datetime) : date_eqb a b = true <-> a = b.
Proof.
  destruct a, b. split; intro H.
  - revert H. date_cases; intros; congruence.
  - inversion H; subst. date_cases.
Qed.

Lemma date_eqb_refl (a : datetime) : date_eqb a a = true.
Proof. now apply date_eqb_eq. Qed.

Lemma date_ltb_neq (a b d : datetime) :
  date_ltb a b = true -> date_eqb a d = true -> date_eqb b d = true -> False.
Proof.
  intros Hlt Ha Hb. apply date_eqb_eq in Ha, Hb. subst.
  rewrite date_ltb_irrefl in Hlt. discriminate.
Qed.

(** [a >= b] is "not [a < b]"; it is transitive and total. *)
Definition date_geb (a b : datetime) : bool := negb (date_ltb a b).

Lemma date_geb_trans (a b c : datetime) :
  date_geb a b = true -> date_geb b c = true -> date_geb a c = true.
Proof. unfold date_geb. destruct a, b, c. date_cases. Qed.

Lemma date_ltb_geb (a b : datetime) :
  date_ltb a b = true -> date_geb b a = true.
Proof. unfold date_geb. destruct a, b. date_cases. Qed.

Lemma date_geb_antisym (a b : datetime) :
  date_geb a b = true -> date_geb b a = true -> a = b.
Proof.
  unfold date_geb. destruct a, b. date_cases; intros; f_equal; lia.
Qed.

(** ** The stable descending sort *)

Section SortFacts.

Context {A : Type}.

Implicit Types (l : list (datetime * A)) (k d : datetime).

Definition has_date d (p : datetime * A) : bool := date_eqb (fst p) d.

Definition descending (p q : datetime * A) : Prop :=
  date_geb (fst p) (fst q) = true.

Lemma insert_desc_perm k (x : A) l :
  Permutation (insert_desc k x l) ((k, x) :: l).
Proof.
  induction l as [|[k' y] r IH]; simpl.
  - reflexivity.
  - destruct (date_ltb k k').
    + rewrite IH. apply perm_swap.
    + reflexivity.
Qed.

Lemma sort_desc_perm l : Permutation (sort_desc l) l.
Proof.
  induction l as [|[k x] r IH]; simpl.
  - constructor.
  - rewrite insert_desc_perm. now constructor.
Qed.

Lemma insert_desc_sorted k (x : A) l :
  StronglySorted descending l ->
  StronglySorted descending (insert_desc k x l).
Proof.
  induction l as [|[k' y] r IH]; simpl; intro S.
  - repeat constructor.
  - inversion S as [|? ? Sr Fr]; subst.
    destruct (date_ltb k k') eqn:E.
    + constructor; [now apply IH|].
      eapply Permutation_Forall.
      * symmetry. apply insert_desc_perm.
      * constructor; [|exact Fr].
        unfold descending. simpl. now apply date_ltb_geb.
    + constructor; [exact S|].
      assert (G : date_geb k k' = true) by (unfold date_geb; now rewrite E).
      constructor; [exact G|].
      eapply Forall_impl; [|exact Fr].
      intros q Hq. unfold descending in *. simpl in *.
      eapply date_geb_trans; eassumption.
Qed.

Lemma sort_desc_sorted l : StronglySorted descending (sort_desc l).
Proof.
  induction l as [|[k x] r IH]; simpl.
  - constructor.
  - now apply insert_desc_sorted.
Qed.

(** Inserting passes over strictly later dates only, so the items of any
    one date keep their order. *)
Lemma insert_desc_filter d k (x : A) l :
  filter (has_date d) (insert_desc k x l) = filter (has_date d) ((k, x) :: l).
Proof.
  induction l as [|[k' y] r IH]; simpl.
  - reflexivity.
  - destruct (date_ltb k k') eqn:E; [|reflexivity].
    simpl. rewrite IH. simpl. unfold has_date. simpl.
    destruct (date_eqb k d) eqn:Ek, (date_eqb k' d) eqn:Ek'; try reflexivity.
    exfalso. eapply date_ltb_neq; eassumption.
Qed.

Lemma sort_desc_filter d l :
  filter (has_date d) (sort_desc l) = filter (has_date d) l.
Proof.
  induction l as [|[k x] r IH]; simpl.
  - reflexivity.
  - rewrite insert_desc_filter. simpl. now rewrite IH.
Qed.

End SortFacts.

(** Splitting a list at an item that survives a filter. *)
Lemma filter_split {A} (p : A -> bool) (x : A) (s a b : list A) :
  filter p s = a ++ x :: b ->
  exists s1 s2, s = s1 ++ x :: s2 /\ filter p s1 = a /\ filter p s2 = b.
Proof.
  revert a. induction s as [|h t IH]; simpl; intros a H.
  - destruct a; discriminate.
  - destruct (p h) eqn:E.
    + destruct a as [|a0 a'].
      * inversion H; subst. exists [], t. simpl. auto.
      * inversion H; subst.
        destruct (IH a' H2) as (s1 & s2 & -> & F1 & F2).
        exists (a0 :: s1), s2. simpl. rewrite E, F1. auto.
    + destruct (IH a H) as (s1 & s2 & -> & F1 & F2).
      exists (h :: s1), s2. simpl. rewrite E. auto.
Qed.

(** ** The date parser *)

Lemma digits_value_raises (s : str) (acc : Z) (e : exn) :
  digits_value acc s = Raise e -> e = ValueError.
Proof.
  revert acc. induction s as [|c t IH]; simpl; intros acc H.
  - discriminate.
  - destruct (decimal c); [eauto | congruence].
Qed.

Lemma py_int_raises (s : str) (e : exn) : py_int s = Raise e -> e = ValueError.
Proof.
  unfold py_int. destruct (skip_spaces s); [congruence|].
  apply digits_value_raises.
Qed.

Lemma make_datetime_raises (y m d : Z) (e : exn) :
  make_datetime y m d = Raise e -> e = ValueError.
Proof.
  unfold make_datetime.
  repeat match goal with |- context [if ?b then _ else _] => destruct b end;
    congruence.
Qed.

Lemma make_datetime_min (y m d : Z) (t : datetime) :
  make_datetime y m d = Ok t -> date_geb t datetime_min = true.
Proof.
  unfold make_datetime.
  destruct ((1 <=? y) && (y <=? 9999)) eqn:Ey; simpl; [|discriminate].
  destruct ((1 <=? m) && (m <=? 12)) eqn:Em; simpl; [|discriminate].
  destruct ((1 <=? d) && (d <=? days_in_month y m)) eqn:Ed; simpl;
    [|discriminate].
  intro H. inversion H; subst. clear H.
  apply andb_prop in Ey, Em, Ed.
  destruct Ey as [Ey _], Em as [Em _], Ed as [Ed _].
  apply Z.leb_le in Ey, Em, Ed.
  unfold date_geb, datetime_min. date_cases.
Qed.

Lemma strptime_raises (v : json) (e : exn) :
  strptime v = Raise e -> e = ValueError \/ e = TypeError.
Proof.
  unfold strptime. destruct v; try (intro H; inversion H; now auto).
  destruct (rmatch format_regex s) as [|[caps rest] ?];
    [intro H; inversion H; now auto|].
  destruct rest; [|intro H; inversion H; now auto].
  unfold bind.
  destruct (py_int (capture GY caps)) eqn:EY;
    [|intro H; inversion H; subst; left; eapply py_int_raises; eassumption].
  destruct (py_int (capture Gm caps)) eqn:EM;
    [|intro H; inversion H; subst; left; eapply py_int_raises; eassumption].
  destruct (py_int (capture Gd caps)) eqn:ED;
    [|intro H; inversion H; subst; left; eapply py_int_raises; eassumption].
  intro H. left. eapply make_datetime_raises; eassumption.
Qed.

Lemma strptime_min (v : json) (t : datetime) :
  strptime v = Ok t -> date_geb t datetime_min = true.
Proof.
  unfold strptime. destruct v; try discriminate.
  destruct (rmatch format_regex s) as [|[caps rest] ?]; [discriminate|].
  destruct rest; [|discriminate].
  unfold bind.
  destruct (py_int (capture GY caps)); [|discriminate].
  destruct (py_int (capture Gm caps)); [|discriminate].
  destruct (py_int (capture Gd caps)); [|discriminate].
  apply make_datetime_min.
Qed.

Lemma parse_date_ok (v : json) (t : datetime) :
  strptime v = Ok t -> _parse_date v = Ok t.
Proof. unfold _parse_date. now intros ->. Qed.

Lemma parse_date_failed (v : json) (e : exn) :
  strptime v = Raise e -> _parse_date v = Ok datetime_min.
Proof.
  intro H. unfold _parse_date. rewrite H.
  destruct (strptime_raises _ _ H); subst; reflexivity.
Qed.

Lemma parse_date_returns (v : json) : exists d, _parse_date v = Ok d.
Proof.
  destruct (strptime v) eqn:E.
  - eexists. eapply parse_date_ok; eassumption.
  - eexists. eapply parse_date_failed; eassumption.
Qed.

(** ** The sort of a category list *)

Definition is_obj (x : json) : bool :=
  match x with
  | JObj _ => true
  | _ => false
  end.

(** The date an entry is sorted by. *)
Definition entry_date (x : json) : datetime :=
  match sort_key x with
  | Ok d => d
  | Raise _ => datetime_min
  end.

(** The entry has a [date] that [strptime] accepts. *)
Definition valid_date (x : json) : bool :=
  match py_get x (u "date") JNull with
  | Ok v => match strptime v with Ok _ => true | Raise _ => false end
  | Raise _ => false
  end.

Definition same_date (d : datetime) (x : json) : bool :=
  date_eqb (entry_date x) d.

Definition not_earlier (a b : json) : Prop :=
  date_geb (entry_date a) (entry_date b) = true.

Definition decorate (x : json) : datetime * json := (entry_date x, x).

Definition sorted_by_date (l : list json) : list json :=
  map snd (sort_desc (map decorate l)).

Lemma sort_key_obj (x : json) :
  is_obj x = true -> sort_key x = Ok (entry_date x).
Proof.
  destruct x; try discriminate. intros _.
  unfold entry_date, sort_key. simpl.
  destruct (parse_date_returns (dict_get d (u "date") JNull)) as [t ->].
  reflexivity.
Qed.

Lemma entry_date_invalid (x : json) :
  valid_date x = false -> entry_date x = datetime_min.
Proof.
  unfold valid_date, entry_date, sort_key.
  destruct (py_get x (u "date") JNull) as [v|]; simpl; [|reflexivity].
  destruct (strptime v) eqn:E; [discriminate|]. intros _.
  now rewrite (parse_date_failed _ _ E).
Qed.

Lemma mapM_keyed (l : list json) :
  Forall (fun x => is_obj x = true) l ->
  mapM keyed l = Ok (map decorate l).
Proof.
  induction 1 as [|x r Hx _ IH]; simpl.
  - reflexivity.
  - unfold keyed at 1. rewrite (sort_key_obj _ Hx). simpl. now rewrite IH.
Qed.

Lemma sort_entries_objs (l : list json) :
  Forall (fun x => is_obj x = true) l ->
  sort_entries l = Ok (sorted_by_date l).
Proof.
  intro H. unfold sort_entries. now rewrite (mapM_keyed _ H).
Qed.

Definition decorated (p : datetime * json) : Prop := fst p = entry_date (snd p).

Lemma sort_desc_decorated (l : list json) :
  Forall decorated (sort_desc (map decorate l)).
Proof.
  eapply Permutation_Forall.
  - symmetry. apply sort_desc_perm.
  - apply Forall_forall. intros p Hp. apply in_map_iff in Hp.
    destruct Hp as (x & <- & _). reflexivity.
Qed.

Lemma sorted_by_date_perm (l : list json) : Permutation (sorted_by_date l) l.
Proof.
  unfold sorted_by_date. rewrite (sort_desc_perm (map decorate l)).
  rewrite map_map. simpl. now rewrite map_id.
Qed.

Lemma sorted_by_date_descending (l : list json) :
  StronglySorted not_earlier (sorted_by_date l).
Proof.
  unfold sorted_by_date.
  generalize (sort_desc_decorated l) (sort_desc_sorted (map decorate l)).
  generalize (sort_desc (map decorate l)) as s.
  induction s as [|p s IH]; simpl; intros D S.
  - constructor.
  - inversion D as [|? ? Dp Ds]; inversion S as [|? ? Ss Fs]; subst.
    constructor; [now apply IH|].
    apply Forall_map. apply Forall_forall. intros q Hq.
    rewrite Forall_forall in Ds, Fs.
    unfold not_earlier. rewrite <- Dp, <- (Ds q Hq). now apply Fs.
Qed.

Lemma sorted_by_date_stable (d : datetime) (l : list json) :
  filter (same_date d) (sorted_by_date l) = filter (same_date d) l.
Proof.
  unfold sorted_by_date.
  assert (E1 : forall s, Forall decorated s ->
            filter (same_date d) (map snd s) = map snd (filter (has_date d) s)).
  { induction 1 as [|p s Dp _ IH]; simpl; [reflexivity|].
    unfold same_date at 1, has_date at 1. rewrite <- Dp.
    destruct (date_eqb (fst p) d); simpl; now rewrite IH. }
  rewrite (E1 _ (sort_desc_decorated l)), sort_desc_filter.
  induction l as [|x r IH]; simpl; [reflexivity|].
  unfold has_date at 1, same_date at 1. simpl.
  destruct (date_eqb (entry_date x) d); simpl; now rewrite IH.
Qed.

(** In a strongly sorted list the relation holds between any two positions
    in order. *)
Lemma StronglySorted_nth {A} (R : A -> A -> Prop) (s : list A) :
  StronglySorted R s ->
  forall i j x y,
    nth_error s i = Some x -> nth_error s j = Some y -> (i < j)%nat -> R x y.
Proof.
  induction 1 as [|a s S IH F]; intros i j x y Hi Hj Hlt.
  - destruct i; discriminate.
  - destruct j as [|j]; [lia|]. simpl in Hj.
    destruct i as [|i]; simpl in Hi.
    + inversion Hi; subst. rewrite Forall_forall in F.
      apply F. eapply nth_error_In; eassumption.
    + eapply IH; try eassumption. lia.
Qed.

(** Where one entry sits after another in the list the section is rendered
    from: every [P] entry is behind every [Q] entry. *)
Definition placed_after (P Q : json -> bool) (sorted : list json) : Prop :=
  forall i j x y,
    nth_error sorted i = Some x -> nth_error sorted j = Some y ->
    P x = true -> Q y = true -> (j < i)%nat.

Definition invalid_date (x : json) : bool := negb (valid_date x).

(** The entry's date is later than [datetime.min]. *)
Definition after_min (x : json) : bool := date_ltb datetime_min (entry_date x).

Lemma sorted_by_date_invalid_last (l : list json) :
  placed_after invalid_date after_min (sorted_by_date l).
Proof.
  intros i j x y Hi Hj Px Qy.
  unfold invalid_date in Px. apply negb_true_iff in Px.
  apply entry_date_invalid in Px. unfold after_min in Qy.
  destruct (Nat.lt_trichotomy j i) as [H|[H|H]]; [exact H| |].
  - subst. rewrite Hi in Hj. inversion Hj; subst.
    rewrite Px, date_ltb_irrefl in Qy. discriminate.
  - pose proof (StronglySorted_nth _ _ (sorted_by_date_descending l)
                  _ _ _ _ Hi Hj H) as G.
    unfold not_earlier, date_geb in G. rewrite Px, Qy in G. discriminate.
Qed.

(** Entries that share a date keep their order: if [x] stands before [y] in
    the input, it does in the sorted list. *)
Lemma sorted_by_date_keeps_order (l l1 l2 l3 : list json) (x y : json) :
  l = l1 ++ x :: l2 ++ y :: l3 ->
  entry_date x = entry_date y ->
  exists s1 s2 s3, sorted_by_date l = s1 ++ x :: s2 ++ y :: s3.
Proof.
  intros -> E.
  pose proof (sorted_by_date_stable (entry_date x)
                (l1 ++ x :: l2 ++ y :: l3)) as H.
  assert (Hx : same_date (entry_date x) x = true) by apply date_eqb_refl.
  assert (Hy : same_date (entry_date x) y = true)
    by (unfold same_date; rewrite <- E; apply date_eqb_refl).
  change (l1 ++ x :: l2 ++ y :: l3) with (l1 ++ [x] ++ l2 ++ [y] ++ l3) in H.
  rewrite !filter_app in H. cbn [filter] in H. rewrite Hx, Hy in H.
  cbn [app] in H.
  apply filter_split in H. destruct H as (s1 & s2 & -> & _ & H).
  apply filter_split in H. destruct H as (s2' & s3 & -> & _ & _).
  now exists s1, s2', s3.
Qed.

(** ** Dictionaries *)

Lemma str_eqb_eq (a b : str) : str_eqb a b = true <-> a = b.
Proof.
  unfold str_eqb. destruct (list_eq_dec N.eq_dec a b); split;
    congruence.
Qed.

Lemma str_eqb_neq (a b : str) : str_eqb a b = false <-> a <> b.
Proof.
  unfold str_eqb. destruct (list_eq_dec N.eq_dec a b); split;
    congruence.
Qed.

Lemma lookup_store_other (d : dict) (k k' : str) (v : json) :
  k <> k' -> lookup (store d k v) k' = lookup d k'.
Proof.
  intro N. induction d as [|[k0 w] r IH]; simpl; [reflexivity|].
  destruct (str_eqb k0 k) eqn:E; simpl.
  - apply str_eqb_eq in E. subst k0.
    apply str_eqb_neq in N. now rewrite N.
  - now rewrite IH.
Qed.

Lemma lookup_store_same (d : dict) (k : str) (v w : json) :
  lookup d k = Some w -> lookup (store d k v) k = Some v.
Proof.
  induction d as [|[k0 w0] r IH]; simpl; [discriminate|].
  destruct (str_eqb k0 k) eqn:E; simpl; rewrite E; auto.
Qed.

Lemma store_keys (d : dict) (k : str) (v : json) :
  map fst (store d k v) = map fst d.
Proof.
  induction d as [|[k0 w] r IH]; simpl; [reflexivity|].
  destruct (str_eqb k0 k); simpl; now rewrite ?IH.
Qed.

(** ** [mapM] *)

Lemma mapM_Forall2 {A B} (f : A -> result B) (l : list A) :
  Forall (fun x => exists y, f x = Ok y) l ->
  exists ys, mapM f l = Ok ys /\ Forall2 (fun x y => f x = Ok y) l ys.
Proof.
  induction 1 as [|x r [y Hy] _ (ys & E & F)]; simpl.
  - exists []. split; [reflexivity | constructor].
  - exists (y :: ys). rewrite Hy, E. simpl. split; [reflexivity|].
    now constructor.
Qed.

(** ** Entries as the data model types them *)

Definition is_str (v : json) : bool :=
  match v with
  | JStr _ => true
  | _ => false
  end.

(** [keywords], when present, is a sequence of strings. *)
Definition keywords_ok (d : dict) : bool :=
  match lookup d (u "keywords") with
  | None => true
  | Some (JArr l) => forallb is_str l
  | Some _ => false
  end.

Definition entry_ok (e : json) : bool :=
  match e with
  | JObj d => keywords_ok d
  | _ => false
  end.

(** A link field is absent, null or a string. *)
Definition link_ok (d : dict) (k : str) : bool :=
  match lookup d k with
  | None | Some JNull | Some (JStr _) => true
  | Some _ => false
  end.

(** The link of a field that is present and non-empty. *)
Definition link_of (d : dict) (k : str) : option str :=
  match lookup d k with
  | Some (JStr (c :: s)) => Some (c :: s)
  | _ => None
  end.

(** A category, when present, is a sequence of entries. *)
Definition category_ok (d : dict) (key : str) : bool :=
  match lookup d key with
  | None => true
  | Some (JArr l) => forallb entry_ok l
  | Some _ => false
  end.

Definition catalog_ok (d : dict) : bool :=
  category_ok d (u "papers") && category_ok d (u "benchmarks")
  && category_ok d (u "datasets").

Definition strs (l : list json) : list str :=
  flat_map (fun v => match v with JStr s => [s] | _ => [] end) l.

Lemma mapM_as_str (l : list json) :
  forallb is_str l = true -> mapM as_str l = Ok (strs l).
Proof.
  induction l as [|v r IH]; simpl; [reflexivity|].
  intro H. apply andb_prop in H. destruct H as [Hv Hr].
  destruct v; try discriminate. simpl. now rewrite (IH Hr).
Qed.

(** The block of one entry, from the texts of its parts. *)
Definition entry_line (title venue url badges keywords : str) : str :=
  u "**" ++ title ++ u "** <br> [`" ++ venue ++ u "`](" ++ url ++ u ") "
    ++ badges
    ++ match keywords with
       | [] => []
       | _ => u " <br> _Keywords: " ++ keywords ++ u "_"
       end
    ++ u " <br> <br> ".

Definition heading (title : str) : str := u "## " ++ title ++ nl.

(** A section: its heading, then one block per entry, one per line. *)
Definition section_text (title : str) (blocks : list str) : str :=
  join nl (heading title :: blocks) ++ nl.

Section Rendering.

Variable py_repr : json -> str.

Local Notation py_str := (py_str py_repr).
Local Notation generate_badges := (_generate_badges py_repr).
Local Notation format_entry := (_format_entry py_repr).
Local Notation generate_section := (_generate_section py_repr).

(** The badge of a field, emitted when the field is truthy. *)
Definition badge_of (badge : str -> str) (field : option json) : list str :=
  match field with
  | Some v => if truthy v then [badge (py_str v)] else []
  | None => []
  end.

Lemma generate_badges_eq (d : dict) :
  generate_badges (JObj d)
  = Ok (join (u " ") (badge_of arxiv_badge (lookup d (u "arxiv"))
                      ++ badge_of github_badge (lookup d (u "github")))).
Proof.
  unfold _generate_badges, py_get, py_getitem, dict_get, badge_of.
  destruct (lookup d (u "arxiv")) as [a|]; simpl;
    destruct (lookup d (u "github")) as [g|]; simpl;
    repeat match goal with |- context [truthy ?v] => destruct (truthy v) end;
    reflexivity.
Qed.

(** The text of the keywords of a typed entry. *)
Definition keywords_text (d : dict) : str :=
  join (u ", ") (strs (items (dict_get d (u "keywords") (JArr [])))).

Lemma format_entry_eq (d : dict) :
  keywords_ok d = true ->
  exists badges,
    generate_badges (JObj d) = Ok badges
    /\ format_entry (JObj d)
       = Ok (entry_line (py_str (dict_get d (u "title") (JStr (u "Untitled"))))
                        (py_str (dict_get d (u "venue") (JStr (u "Preprint"))))
                        (py_str (dict_get d (u "url") (JStr (u "#"))))
                        badges (keywords_text d)).
Proof.
  intro K. eexists. split; [apply generate_badges_eq|].
  unfold _format_entry. rewrite generate_badges_eq.
  unfold py_get. cbn [bind].
  assert (J : py_join (u ", ") (dict_get d (u "keywords") (JArr []))
              = Ok (keywords_text d)).
  { unfold keywords_text, keywords_ok, dict_get in *.
    destruct (lookup d (u "keywords")) as [[]|]; try discriminate.
    - cbn [py_join items]. now rewrite (mapM_as_str _ K).
    - reflexivity. }
  rewrite J. cbn [bind]. unfold entry_line. f_equal.
  destruct (keywords_text d); cbn [truthy];
    repeat rewrite <- app_assoc; reflexivity.
Qed.

Lemma format_entry_ok (e : json) :
  entry_ok e = true -> exists b, format_entry e = Ok b.
Proof.
  destruct e; try discriminate. intro K.
  destruct (format_entry_eq _ K) as (b & _ & E). eauto.
Qed.

(** ** Sections *)

(** The section under [key] is rendered from [sorted]: the heading, then the
    block of each item of [sorted] in order, and [sorted] is the list that
    [self.data] holds under [key] afterwards. *)
Definition section_order (title key : str) (d : dict) (sorted : list json)
  : Prop :=
  exists blocks,
    Forall2 (fun e b => format_entry e = Ok b) sorted blocks
    /\ generate_section title key (JObj d)
       = (Ok (section_text title blocks), JObj (store d key (JArr sorted))).

Lemma generate_section_falsy (title key : str) (d : dict) :
  truthy (dict_get d key (JArr [])) = false ->
  generate_section title key (JObj d) = (Ok [], JObj d).
Proof.
  intro H. unfold _generate_section, bindM, data_get, py_get.
  now rewrite H.
Qed.

Lemma generate_section_absent (title key : str) (d : dict) :
  lookup d key = None \/ lookup d key = Some (JArr []) ->
  generate_section title key (JObj d) = (Ok [], JObj d).
Proof.
  intro H. apply generate_section_falsy. unfold dict_get.
  destruct H as [-> | ->]; reflexivity.
Qed.

Lemma forallb_entry_ok_objs (l : list json) :
  forallb entry_ok l = true -> Forall (fun x => is_obj x = true) l.
Proof.
  rewrite forallb_forall, Forall_forall. intros H x Hx.
  specialize (H x Hx). now destruct x.
Qed.

Lemma generate_section_sorted (title key : str) (d : dict) (l : list json) :
  lookup d key = Some (JArr l) -> l <> [] -> forallb entry_ok l = true ->
  section_order title key d (sorted_by_date l).
Proof.
  intros L N T.
  assert (F : Forall (fun e => exists b, format_entry e = Ok b)
                (sorted_by_date l)).
  { eapply Permutation_Forall; [symmetry; apply sorted_by_date_perm|].
    rewrite forallb_forall in T. apply Forall_forall. intros e He.
    now apply format_entry_ok, T. }
  destruct (mapM_Forall2 _ _ F) as (blocks & E & F2).
  exists blocks. split; [exact F2|].
  unfold _generate_section, bindM, data_get, data_sort, lift, ret, py_get,
    dict_get.
  rewrite L. destruct l as [|x r]; [congruence|]. cbn [truthy negb].
  unfold py_sort. rewrite (sort_entries_objs _ (forallb_entry_ok_objs _ T)).
  cbn [bind items]. rewrite E. reflexivity.
Qed.

(** What a section is rendered to, as a function of the value read under
    its key. *)
Definition render_section (title : str) (entries : json) : result str :=
  if negb (truthy entries) then Ok []
  else
    sorted <- py_sort entries ;;
    blocks <- mapM format_entry (items sorted) ;;
    Ok (section_text title blocks).

(** What [self.data] holds after the section of [key] was generated. *)
Definition sort_in_place (key : str) (data : json) : json :=
  match data with
  | JObj d =>
      let entries := dict_get d key (JArr []) in
      if truthy entries
      then match py_sort entries with
           | Ok sorted => JObj (store d key sorted)
           | Raise _ => data
           end
      else data
  | _ => data
  end.

Lemma generate_section_run (title key : str) (data : json) :
  generate_section title key data
  = (entries <- py_get data key (JArr []) ;; render_section title entries,
     sort_in_place key data).
Proof.
  unfold _generate_section, bindM, data_get, data_sort, lift, ret,
    render_section, sort_in_place.
  destruct data; try reflexivity.
  cbn [py_get bind]. destruct (truthy (dict_get d key (JArr []))); cbn [negb];
    [|reflexivity].
  destruct (py_sort (dict_get d key (JArr []))) as [sorted|]; cbn [bind];
    [|reflexivity].
  destruct (mapM format_entry (items sorted)); reflexivity.
Qed.

Lemma sort_in_place_frame (key k : str) (data default : json) :
  key <> k ->
  py_get (sort_in_place key data) k default = py_get data k default.
Proof.
  intro N. unfold sort_in_place. destruct data; try reflexivity.
  destruct (truthy (dict_get d key (JArr []))); [|reflexivity].
  destruct (py_sort (dict_get d key (JArr []))); [|reflexivity].
  unfold py_get, dict_get. now rewrite lookup_store_other.
Qed.

(** The section of [key], from what the catalog holds under [key]. *)
Definition section_of (title key : str) (data : json) : result str :=
  entries <- py_get data key (JArr []) ;; render_section title entries.

(** The document, from the three sections. *)
Definition document (papers benchmarks datasets : result str) : result str :=
  p <- papers ;; b <- benchmarks ;; s <- datasets ;;
  Ok (_generate_intro ++ nl ++ p ++ nl ++ b ++ nl ++ s).

Lemma final_markdown_run (data : json) :
  final_markdown py_repr data
  = (document (section_of (u "Papers") (u "papers") data)
              (section_of (u "Benchmarks") (u "benchmarks") data)
              (section_of (u "Datasets") (u "datasets") data),
     match section_of (u "Papers") (u "papers") data with
     | Raise _ => sort_in_place (u "papers") data
     | Ok _ =>
         match section_of (u "Benchmarks") (u "benchmarks") data with
         | Raise _ => sort_in_place (u "benchmarks")
                        (sort_in_place (u "papers") data)
         | Ok _ => sort_in_place (u "datasets")
                     (sort_in_place (u "benchmarks")
                        (sort_in_place (u "papers") data))
         end
     end).
Proof.
  unfold final_markdown, bindM, document, section_of.
  rewrite generate_section_run.
  destruct (entries <- py_get data (u "papers") (JArr []) ;;
            render_section (u "Papers") entries) as [p|]; [|reflexivity].
  rewrite generate_section_run.
  rewrite sort_in_place_frame by (intro H; vm_compute in H; discriminate).
  destruct (entries <- py_get data (u "benchmarks") (JArr []) ;;
            render_section (u "Benchmarks") entries) as [b|]; [|reflexivity].
  rewrite generate_section_run.
  rewrite !sort_in_place_frame by (intro H; vm_compute in H; discriminate).
  destruct (entries <- py_get data (u "datasets") (JArr []) ;;
            render_section (u "Datasets") entries) as [s|]; reflexivity.
Qed.

End Rendering.

(** ** Typed catalogs *)

(** The catalog after the list under [key] was sorted in place. *)
Definition sort_category (d : dict) (key : str) : dict :=
  match lookup d key with
  | Some (JArr (x :: l)) => store d key (JArr (sorted_by_date (x :: l)))
  | _ => d
  end.

Definition resorted (field : option json) : option json :=
  match field with
  | Some (JArr l) => Some (JArr (sorted_by_date l))
  | other => other
  end.

Lemma lookup_sort_category (d : dict) (key k : str) :
  lookup (sort_category d key) k
  = if str_eqb key k then resorted (lookup d k) else lookup d k.
Proof.
  unfold sort_category. destruct (str_eqb key k) eqn:E.
  - apply str_eqb_eq in E. subst k.
    destruct (lookup d key) as [[]|] eqn:L; simpl; try exact L.
    destruct l as [|x l]; [exact L|].
    eapply lookup_store_same; eassumption.
  - apply str_eqb_neq in E.
    destruct (lookup d key) as [[]|]; try reflexivity.
    destruct l; [reflexivity|]. now apply lookup_store_other.
Qed.

Lemma sort_category_keys (d : dict) (key : str) :
  map fst (sort_category d key) = map fst d.
Proof.
  unfold sort_category. destruct (lookup d key) as [[]|]; try reflexivity.
  destruct l; [reflexivity|]. apply store_keys.
Qed.

Lemma category_ok_sort_category (d : dict) (key k : str) :
  key <> k -> category_ok (sort_category d key) k = category_ok d k.
Proof.
  intro N. unfold category_ok. rewrite lookup_sort_category.
  apply str_eqb_neq in N. now rewrite N.
Qed.

Lemma sort_in_place_typed (d : dict) (key : str) :
  category_ok d key = true ->
  sort_in_place key (JObj d) = JObj (sort_category d key).
Proof.
  unfold category_ok, sort_in_place, sort_category, dict_get.
  destruct (lookup d key) as [[]|]; try discriminate; try reflexivity.
  destruct l as [|x l]; [reflexivity|]. intro T. cbn [truthy py_sort].
  now rewrite (sort_entries_objs _ (forallb_entry_ok_objs _ T)).
Qed.

Lemma sorted_by_date_nil : sorted_by_date [] = [].
Proof. reflexivity. Qed.

Section Catalogs.

Variable py_repr : json -> str.
Variable json_loads : str -> result json.

Local Notation format_entry := (_format_entry py_repr).
Local Notation generate_section := (_generate_section py_repr).
Local Notation section_of := (section_of py_repr).

(** The text of a section of a typed catalog: nothing for a category that
    is absent or empty, otherwise the heading and one block per entry. *)
Definition section_shape (d : dict) (title key text : str) : Prop :=
  (lookup d key = None \/ lookup d key = Some (JArr []) -> text = [])
  /\ (forall l, lookup d key = Some (JArr l) -> l <> [] ->
      exists blocks,
        Forall2 (fun e b => format_entry e = Ok b) (sorted_by_date l) blocks
        /\ text = section_text title blocks).

Lemma section_of_typed (d : dict) (title key : str) :
  category_ok d key = true ->
  exists text,
    section_of title key (JObj d) = Ok text /\ section_shape d title key text.
Proof.
  intro T.
  assert (E : section_of title key (JObj d)
              = fst (generate_section title key (JObj d)))
    by now rewrite generate_section_run.
  unfold category_ok in T.
  destruct (lookup d key) as [v|] eqn:L.
  - destruct v; try discriminate. destruct l as [|x l].
    + exists []. rewrite E, generate_section_absent by auto.
      split; [reflexivity|]. split; [reflexivity|].
      intros l Hl Hn. rewrite L in Hl. inversion Hl; subst. congruence.
    + assert (N : x :: l <> []) by discriminate.
      destruct (generate_section_sorted py_repr title key d _ L N T)
        as (blocks & F & G).
      exists (section_text title blocks). rewrite E, G.
      split; [reflexivity|]. split.
      * intros [H|H]; rewrite L in H; discriminate.
      * intros l' Hl' _. rewrite L in Hl'. inversion Hl'; subst. eauto.
  - exists []. rewrite E, generate_section_absent by auto.
    split; [reflexivity|]. split; [reflexivity|].
    intros l Hl. rewrite L in Hl. discriminate.
Qed.

Definition category_keys : list str :=
  [u "papers"; u "benchmarks"; u "datasets"].

Definition sorted_catalog (d : dict) : dict :=
  sort_category (sort_category (sort_category d (u "papers")) (u "benchmarks"))
                (u "datasets").

Lemma final_markdown_typed (d : dict) :
  catalog_ok d = true ->
  exists p b s,
    final_markdown py_repr (JObj d)
    = (Ok (_generate_intro ++ nl ++ p ++ nl ++ b ++ nl ++ s),
       JObj (sorted_catalog d))
    /\ section_shape d (u "Papers") (u "papers") p
    /\ section_shape d (u "Benchmarks") (u "benchmarks") b
    /\ section_shape d (u "Datasets") (u "datasets") s.
Proof.
  unfold catalog_ok. intro T.
  apply andb_prop in T. destruct T as [T Ts].
  apply andb_prop in T. destruct T as [Tp Tb].
  destruct (section_of_typed d (u "Papers") _ Tp) as (p & Ep & Sp).
  destruct (section_of_typed d (u "Benchmarks") _ Tb) as (b & Eb & Sb).
  destruct (section_of_typed d (u "Datasets") _ Ts) as (s & Es & Ss).
  exists p, b, s. rewrite final_markdown_run, Ep, Eb, Es.
  split; [|now auto]. unfold document. cbn [bind]. f_equal.
  unfold sorted_catalog.
  rewrite (sort_in_place_typed _ _ Tp).
  rewrite sort_in_place_typed
    by (rewrite category_ok_sort_category;
        [exact Tb | intro H; vm_compute in H; discriminate]).
  rewrite sort_in_place_typed
    by (rewrite !category_ok_sort_category;
        [exact Ts | intro H; vm_compute in H; discriminate
                  | intro H; vm_compute in H; discriminate]).
  reflexivity.
Qed.

Lemma lookup_sorted_catalog (d : dict) (k : str) :
  lookup (sorted_catalog d) k
  = if existsb (str_eqb k) category_keys then resorted (lookup d k)
    else lookup d k.
Proof.
  unfold sorted_catalog. rewrite !lookup_sort_category.
  cbn [existsb category_keys]. rewrite orb_false_r.
  destruct (str_eqb k (u "papers")) eqn:E1.
  { apply str_eqb_eq in E1. subst k. reflexivity. }
  destruct (str_eqb k (u "benchmarks")) eqn:E2.
  { apply str_eqb_eq in E2. subst k. reflexivity. }
  destruct (str_eqb k (u "datasets")) eqn:E3.
  { apply str_eqb_eq in E3. subst k. reflexivity. }
  apply str_eqb_neq in E1, E2, E3.
  assert (S : forall a, k <> a -> str_eqb a k = false)
    by (intros a Ha; apply str_eqb_neq; congruence).
  rewrite !S by assumption. reflexivity.
Qed.

(** What [generate] leaves in [self.data] and in the output file. *)
Lemma generate_data (self : generator) (w : world) :
  data (snd (fst (generate py_repr self w)))
  = snd (final_markdown py_repr (data self)).
Proof.
  unfold generate.
  destruct (final_markdown py_repr (data self)) as [[text|e] d];
    [|reflexivity].
  destruct (write_file _ _ _) as [[|] ?]; reflexivity.
Qed.

Lemma generate_writes (self : generator) (w : world) (text : str) (d : json) :
  final_markdown py_repr (data self) = (Ok text, d) ->
  fs w (output_path self) <> Some Directory ->
  exists w',
    generate py_repr self w = (Ok tt, set_data self d, w')
    /\ fs w' (output_path self) = Some (File text)
    /\ (forall p, p <> output_path self -> fs w' p = fs w p).
Proof.
  intros E N. unfold generate, write_file, print. rewrite E. cbn [fs stdout].
  destruct (fs w (output_path self)) as [[]|] eqn:F; try congruence;
    (eexists; split; [reflexivity|]; cbn [fs]; split;
     [ now rewrite (proj2 (str_eqb_eq _ _) eq_refl)
     | intros p Hp; apply str_eqb_neq in Hp; now rewrite Hp ]).
Qed.

End Catalogs.

Lemma category_keys_In (k : str) :
  existsb (str_eqb k) category_keys = true <-> In k category_keys.
Proof.
  rewrite existsb_exists. split.
  - intros (a & Ha & E). apply str_eqb_eq in E. now subst.
  - intro H. exists k. split; [exact H | now apply str_eqb_eq].
Qed.

Lemma catalog_ok_category (d : dict) (k : str) :
  catalog_ok d = true -> In k category_keys -> category_ok d k = true.
Proof.
  unfold catalog_ok. intro T.
  apply andb_prop in T. destruct T as [T Ts].
  apply andb_prop in T. destruct T as [Tp Tb].
  intros [<-|[<-|[<-|[]]]]; assumption.
Qed.

(** ** Sample data

    The samples below format no float, list or dict and load no file, so
    neither [repr] nor [json.loads] is consulted on them. *)

Definition no_repr : json -> str := fun _ => [].

Definition no_loads : str -> result json := fun _ => Raise JSONDecodeError.

Definition entry_a : json :=
  JObj [(u "title", JStr (u "A")); (u "date", JStr (u "2023-01-01"))].

Definition entry_b : json :=
  JObj [(u "title", JStr (u "B")); (u "date", JStr (u "2024-01-01"))].

Definition undated : json := JObj [(u "title", JStr (u "X"))].

Definition year_one : json :=
  JObj [(u "title", JStr (u "Y")); (u "date", JStr (u "0001-01-01"))].

Definition linked : json :=
  JObj [(u "arxiv", JStr (u "https://arxiv.org/abs/1"));
        (u "github", JStr (u "https://github.com/a/b"))].

Definition nulls : json :=
  JObj [(u "title", JNull); (u "url", JNull); (u "venue", JNull)].

Definition empty_world : world := mkworld (fun _ => None) [].

Example round_trip :
  fst (_generate_section no_repr (u "Papers") (u "papers")
         (JObj [(u "papers", JArr [entry_a; entry_b])]))
  = Ok (u "## Papers" ++ nl ++ nl
          ++ u "**B** <br> [`Preprint`](#)  <br> <br> " ++ nl
          ++ u "**A** <br> [`Preprint`](#)  <br> <br> " ++ nl).
Proof. reflexivity. Qed.

Example keywords_line :
  _format_entry no_repr
    (JObj [(u "keywords", JArr [JStr (u "x"); JStr (u "y")])])
  = Ok (u "**Untitled** <br> [`Preprint`](#)  <br> _Keywords: x, y_ <br> <br> ").
Proof. reflexivity. Qed.

Example parse_date_samples :
  _parse_date (JStr (u "2024-02-29")) = Ok (mkdate 2024 2 29)
  /\ _parse_date (JStr (u "2023-02-29")) = Ok datetime_min
  /\ _parse_date (JStr (u "2023-1-5")) = Ok (mkdate 2023 1 5)
  /\ _parse_date (JStr (u "01/02/2023")) = Ok datetime_min
  /\ _parse_date (JStr []) = Ok datetime_min
  /\ _parse_date JNull = Ok datetime_min
  /\ _parse_date (JInt 20230101) = Ok datetime_min.
Proof. repeat split. Qed.

(** * The claims *)

(** C1, as amended: in a category's rendered section, every entry whose
    [date] is absent or is not accepted by the parser stands after every
    entry whose date is later than 0001-01-01, the minimum date that the
    parser returns on failure.  The section is rendered from a permutation
    of the category list in descending order of parsed date. *)
Theorem invalid_dates_sort_last
  (py_repr : json -> str) (title key : str) (d : dict) (l : list json) :
  lookup d key = Some (JArr l) -> l <> [] -> forallb entry_ok l = true ->
  exists sorted,
    section_order py_repr title key d sorted
    /\ Permutation sorted l
    /\ StronglySorted not_earlier sorted
    /\ placed_after invalid_date after_min sorted.
Proof.
  intros L N T. exists (sorted_by_date l).
  split; [now apply generate_section_sorted|].
  split; [apply sorted_by_date_perm|].
  split; [apply sorted_by_date_descending | apply sorted_by_date_invalid_last].
Qed.

Lemma invalid_dates_sort_last_witness :
  exists sorted,
    section_order no_repr (u "Papers") (u "papers")
      [(u "papers", JArr [undated; entry_a; entry_b])] sorted
    /\ Permutation sorted [undated; entry_a; entry_b]
    /\ StronglySorted not_earlier sorted
    /\ placed_after invalid_date after_min sorted.
Proof.
  apply (invalid_dates_sort_last no_repr (u "Papers") (u "papers")
           [(u "papers", JArr [undated; entry_a; entry_b])]);
    [reflexivity | discriminate | reflexivity].
Defined.

(** C1, as stated, fails: an entry without a date listed before an entry
    dated 0001-01-01 is rendered before it, since both sort by the minimum
    date and the sort keeps their order. *)
Lemma undated_before_year_one :
  section_order no_repr (u "Papers") (u "papers")
    [(u "papers", JArr [undated; year_one])] [undated; year_one]
  /\ invalid_date undated = true
  /\ valid_date year_one = true
  /\ ~ (exists sorted,
         section_order no_repr (u "Papers") (u "papers")
           [(u "papers", JArr [undated; year_one])] sorted
         /\ placed_after invalid_date valid_date sorted).
Proof.
  split; [|split; [reflexivity|split; [reflexivity|]]].
  - exists [u "**X** <br> [`Preprint`](#)  <br> <br> ";
            u "**Y** <br> [`Preprint`](#)  <br> <br> "].
    split; [repeat constructor | reflexivity].
  - intros (sorted & (blocks & _ & G) & P).
    vm_compute in G. inversion G; subst.
    specialize (P 0%nat 1%nat undated year_one eq_refl eq_refl
                  eq_refl eq_refl).
    lia.
Qed.

(** C2: the sort of a category is stable.  The entries of any one parsed
    date stand in the rendered section as they stand in the input list: an
    entry listed before another of the same parsed date is rendered before
    it, and entries whose dates are invalid or absent all share one date. *)
Theorem section_sort_stable
  (py_repr : json -> str) (title key : str) (d : dict) (l : list json) :
  lookup d key = Some (JArr l) -> l <> [] -> forallb entry_ok l = true ->
  exists sorted,
    section_order py_repr title key d sorted
    /\ (forall t, filter (same_date t) sorted = filter (same_date t) l)
    /\ (forall x y l1 l2 l3,
          l = l1 ++ x :: l2 ++ y :: l3 -> entry_date x = entry_date y ->
          exists s1 s2 s3, sorted = s1 ++ x :: s2 ++ y :: s3)
    /\ (forall x y, invalid_date x = true -> invalid_date y = true ->
          entry_date x = entry_date y).
Proof.
  intros L N T. exists (sorted_by_date l).
  split; [now apply generate_section_sorted|].
  split; [intro t; apply sorted_by_date_stable|].
  split.
  - intros x y l1 l2 l3 E D. eapply sorted_by_date_keeps_order; eassumption.
  - intros x y Hx Hy. unfold invalid_date in *.
    apply negb_true_iff in Hx, Hy.
    now rewrite (entry_date_invalid _ Hx), (entry_date_invalid _ Hy).
Qed.

Lemma section_sort_stable_witness :
  exists sorted,
    section_order no_repr (u "Papers") (u "papers")
      [(u "papers", JArr [undated; entry_a; year_one])] sorted
    /\ (forall t, filter (same_date t) sorted
                  = filter (same_date t) [undated; entry_a; year_one])
    /\ (forall x y l1 l2 l3,
          [undated; entry_a; year_one] = l1 ++ x :: l2 ++ y :: l3 ->
          entry_date x = entry_date y ->
          exists s1 s2 s3, sorted = s1 ++ x :: s2 ++ y :: s3)
    /\ (forall x y, invalid_date x = true -> invalid_date y = true ->
          entry_date x = entry_date y).
Proof.
  apply (section_sort_stable no_repr (u "Papers") (u "papers")
           [(u "papers", JArr [undated; entry_a; year_one])]);
    [reflexivity | discriminate | reflexivity].
Defined.

(** C3: the date parser is total.  On every value it returns a date and
    does not raise; when [strptime] fails, on a malformed or empty string,
    on a value that is not a string or on the [None] of an absent field,
    it returns the minimum date, and no date it returns is earlier. *)
Theorem parse_date_total (v : json) :
  exists d,
    _parse_date v = Ok d
    /\ (forall e, strptime v = Raise e -> d = datetime_min)
    /\ (forall t, strptime v = Ok t -> d = t)
    /\ (is_str v = false -> d = datetime_min)
    /\ (v = JStr [] -> d = datetime_min)
    /\ date_geb d datetime_min = true.
Proof.
  destruct (strptime v) as [t|e] eqn:E.
  - exists t. rewrite (parse_date_ok _ _ E).
    split; [reflexivity|]. split; [discriminate|].
    split; [congruence|]. split; [|split].
    + destruct v; try discriminate; simpl in E; discriminate.
    + intros ->. discriminate.
    + eapply strptime_min; eassumption.
  - exists datetime_min. rewrite (parse_date_failed _ _ E).
    repeat split; try reflexivity. discriminate.
Qed.

(** C4: rendering an entry never fails on absent fields and uses the
    documented defaults for them: title "Untitled", url "#", venue
    "Preprint", no keywords line and no badges.  The entry is typed as in
    the data model: its [keywords], when present, is a sequence of
    strings. *)
Theorem format_entry_defaults (py_repr : json -> str) (d : dict) :
  keywords_ok d = true ->
  exists title venue url badges keywords,
    _format_entry py_repr (JObj d)
    = Ok (entry_line title venue url badges keywords)
    /\ _generate_badges py_repr (JObj d) = Ok badges
    /\ (lookup d (u "title") = None -> title = u "Untitled")
    /\ (lookup d (u "url") = None -> url = u "#")
    /\ (lookup d (u "venue") = None -> venue = u "Preprint")
    /\ (lookup d (u "keywords") = None -> keywords = [])
    /\ (lookup d (u "arxiv") = None -> lookup d (u "github") = None ->
        badges = []).
Proof.
  intro K. destruct (format_entry_eq py_repr d K) as (badges & B & E).
  do 5 eexists. split; [exact E|]. split; [exact B|].
  unfold keywords_text, dict_get.
  repeat split; try (intros ->; reflexivity).
  intros A G. rewrite generate_badges_eq, A, G in B.
  simpl in B. now inversion B.
Qed.

Lemma format_entry_defaults_witness :
  exists title venue url badges keywords,
    _format_entry no_repr (JObj [])
    = Ok (entry_line title venue url badges keywords)
    /\ _generate_badges no_repr (JObj []) = Ok badges
    /\ (lookup [] (u "title") = None -> title = u "Untitled")
    /\ (lookup [] (u "url") = None -> url = u "#")
    /\ (lookup [] (u "venue") = None -> venue = u "Preprint")
    /\ (lookup [] (u "keywords") = None -> keywords = [])
    /\ (lookup [] (u "arxiv") = None -> lookup [] (u "github") = None ->
        badges = []).
Proof.
  apply (format_entry_defaults no_repr []). reflexivity.
Defined.

(** C5: for an entry whose [arxiv] and [github] are absent, null or
    strings, the arXiv badge is emitted exactly when [arxiv] is present and
    non-empty, the GitHub badge exactly when [github] is; with both, the
    output is the arXiv badge, one space, the GitHub badge. *)
Theorem generate_badges_order (py_repr : json -> str) (d : dict) :
  link_ok d (u "arxiv") = true -> link_ok d (u "github") = true ->
  _generate_badges py_repr (JObj d)
  = Ok match link_of d (u "arxiv"), link_of d (u "github") with
       | Some a, Some g => arxiv_badge a ++ u " " ++ github_badge g
       | Some a, None => arxiv_badge a
       | None, Some g => github_badge g
       | None, None => []
       end.
Proof.
  unfold link_ok, link_of. intros A G. rewrite generate_badges_eq.
  destruct (lookup d (u "arxiv")) as [[| | | |[|a0 a]| |]|]; try discriminate;
    destruct (lookup d (u "github")) as [[| | | |[|g0 g]| |]|];
    try discriminate; reflexivity.
Qed.

Lemma generate_badges_order_witness :
  _generate_badges no_repr linked
  = Ok (arxiv_badge (u "https://arxiv.org/abs/1") ++ u " "
          ++ github_badge (u "https://github.com/a/b")).
Proof.
  apply (generate_badges_order no_repr
           [(u "arxiv", JStr (u "https://arxiv.org/abs/1"));
            (u "github", JStr (u "https://github.com/a/b"))]);
    reflexivity.
Defined.

(** C6: a category that is absent or whose list is empty is rendered to
    the empty text, without a heading, and the document of a typed catalog
    is the introduction followed by the three sections, where each
    category that has entries has its heading and its blocks. *)
Theorem empty_category_omitted (py_repr : json -> str) (d : dict) :
  catalog_ok d = true ->
  (forall title key,
      lookup d key = None \/ lookup d key = Some (JArr []) ->
      _generate_section py_repr title key (JObj d) = (Ok [], JObj d))
  /\ exists p b s d',
      final_markdown py_repr (JObj d)
      = (Ok (_generate_intro ++ nl ++ p ++ nl ++ b ++ nl ++ s), d')
      /\ section_shape py_repr d (u "Papers") (u "papers") p
      /\ section_shape py_repr d (u "Benchmarks") (u "benchmarks") b
      /\ section_shape py_repr d (u "Datasets") (u "datasets") s.
Proof.
  intro T. split.
  - intros title key H. now apply generate_section_absent.
  - destruct (final_markdown_typed py_repr d T) as (p & b & s & E & S).
    exists p, b, s, (JObj (sorted_catalog d)). now split.
Qed.

Definition datasets_only : dict :=
  [(u "papers", JArr []); (u "datasets", JArr [entry_a])].

Lemma empty_category_omitted_witness :
  (forall title key,
      lookup datasets_only key = None
      \/ lookup datasets_only key = Some (JArr []) ->
      _generate_section no_repr title key (JObj datasets_only)
      = (Ok [], JObj datasets_only))
  /\ exists p b s d',
      final_markdown no_repr (JObj datasets_only)
      = (Ok (_generate_intro ++ nl ++ p ++ nl ++ b ++ nl ++ s), d')
      /\ section_shape no_repr datasets_only (u "Papers") (u "papers") p
      /\ section_shape no_repr datasets_only
           (u "Benchmarks") (u "benchmarks") b
      /\ section_shape no_repr datasets_only (u "Datasets") (u "datasets") s.
Proof.
  apply (empty_category_omitted no_repr datasets_only). reflexivity.
Defined.

(** C7: when the input path does not exist, the constructor raises
    [FileNotFoundError] and the run ends there: the file system, with the
    output path in it, and standard output are as they were. *)
Theorem missing_input_no_output
  (py_repr : json -> str) (json_loads : str -> result json)
  (json_path output_path : str) (w : world) :
  fs w json_path = None ->
  __init__ json_loads json_path output_path w = Raise FileNotFoundError
  /\ run py_repr json_loads json_path output_path w
     = (Raise FileNotFoundError, w)
  /\ (json_path = u "citations.json" -> output_path = u "README.md" ->
      main py_repr json_loads w = (Raise FileNotFoundError, w)).
Proof.
  intro H.
  assert (I : __init__ json_loads json_path output_path w
              = Raise FileNotFoundError)
    by (unfold __init__, _load_data; now rewrite H).
  assert (R : run py_repr json_loads json_path output_path w
              = (Raise FileNotFoundError, w))
    by (unfold run; now rewrite I).
  split; [exact I|]. split; [exact R|].
  intros -> ->. exact R.
Qed.

Lemma missing_input_no_output_witness :
  __init__ no_loads (u "citations.json") (u "README.md") empty_world
  = Raise FileNotFoundError
  /\ run no_repr no_loads (u "citations.json") (u "README.md") empty_world
     = (Raise FileNotFoundError, empty_world)
  /\ (u "citations.json" = u "citations.json" ->
      u "README.md" = u "README.md" ->
      main no_repr no_loads empty_world
      = (Raise FileNotFoundError, empty_world)).
Proof.
  apply (missing_input_no_output no_repr no_loads). reflexivity.
Defined.

(** C8, as amended: generation mutates the loaded catalog only by sorting
    in place.  The keys and their order are kept, every key other than the
    three categories keeps its value, and each category list holds the
    same entries afterwards, in the stable descending order of the sort. *)
Theorem generate_sorts_catalog_in_place
  (py_repr : json -> str) (self : generator) (w : world) (d : dict) :
  data self = JObj d -> catalog_ok d = true ->
  exists d',
    data (snd (fst (generate py_repr self w))) = JObj d'
    /\ map fst d' = map fst d
    /\ (forall k, ~ In k category_keys -> lookup d' k = lookup d k)
    /\ (forall k, In k category_keys -> lookup d k = None ->
        lookup d' k = None)
    /\ (forall k l, In k category_keys -> lookup d k = Some (JArr l) ->
        exists s, lookup d' k = Some (JArr s)
                  /\ sort_entries l = Ok s /\ Permutation s l).
Proof.
  intros D T. exists (sorted_catalog d).
  rewrite generate_data, D.
  destruct (final_markdown_typed py_repr d T) as (p & b & s & E & _).
  rewrite E. split; [reflexivity|]. split; [|split; [|split]].
  - unfold sorted_catalog. now rewrite !sort_category_keys.
  - intros k N. rewrite lookup_sorted_catalog.
    destruct (existsb (str_eqb k) category_keys) eqn:X; [|reflexivity].
    apply category_keys_In in X. contradiction.
  - intros k I L. rewrite lookup_sorted_catalog, L.
    now destruct (existsb (str_eqb k) category_keys).
  - intros k l I L. exists (sorted_by_date l).
    rewrite lookup_sorted_catalog, (proj2 (category_keys_In k) I), L.
    split; [reflexivity|]. split; [|apply sorted_by_date_perm].
    apply sort_entries_objs, forallb_entry_ok_objs.
    pose proof (catalog_ok_category d k T I) as C.
    unfold category_ok in C. now rewrite L in C.
Qed.

Definition unsorted_generator : generator :=
  mkgen (u "citations.json") (u "README.md")
        (JObj [(u "papers", JArr [entry_a; entry_b])]).

Lemma generate_sorts_catalog_in_place_witness :
  exists d',
    data (snd (fst (generate no_repr unsorted_generator empty_world)))
    = JObj d'
    /\ map fst d' = map fst [(u "papers", JArr [entry_a; entry_b])]
    /\ (forall k, ~ In k category_keys ->
        lookup d' k = lookup [(u "papers", JArr [entry_a; entry_b])] k)
    /\ (forall k, In k category_keys ->
        lookup [(u "papers", JArr [entry_a; entry_b])] k = None ->
        lookup d' k = None)
    /\ (forall k l, In k category_keys ->
        lookup [(u "papers", JArr [entry_a; entry_b])] k = Some (JArr l) ->
        exists s, lookup d' k = Some (JArr s)
                  /\ sort_entries l = Ok s /\ Permutation s l).
Proof.
  apply (generate_sorts_catalog_in_place no_repr unsorted_generator
           empty_world [(u "papers", JArr [entry_a; entry_b])]);
    reflexivity.
Defined.

(** C8, as stated, fails: after generation the papers of the loaded
    catalog are in another order than they were loaded in. *)
Lemma generate_reorders_catalog :
  data unsorted_generator = JObj [(u "papers", JArr [entry_a; entry_b])]
  /\ data (snd (fst (generate no_repr unsorted_generator empty_world)))
     = JObj [(u "papers", JArr [entry_b; entry_a])]
  /\ data (snd (fst (generate no_repr unsorted_generator empty_world)))
     <> data unsorted_generator.
Proof.
  split; [reflexivity|]. split; [reflexivity|].
  vm_compute. discriminate.
Qed.

(** C9: the document is a function of what the catalog holds under
    "papers", "benchmarks" and "datasets": two catalogs that agree there
    yield the same document, whatever other keys they hold and in whatever
    order, and the sections come in the order Papers, Benchmarks,
    Datasets after the introduction. *)
Theorem document_depends_on_categories
  (py_repr : json -> str) (c1 c2 : dict) :
  (forall k, In k category_keys ->
             dict_get c1 k (JArr []) = dict_get c2 k (JArr [])) ->
  fst (final_markdown py_repr (JObj c1))
  = fst (final_markdown py_repr (JObj c2))
  /\ fst (final_markdown py_repr (JObj c1))
     = document
         (render_section py_repr (u "Papers")
            (dict_get c1 (u "papers") (JArr [])))
         (render_section py_repr (u "Benchmarks")
            (dict_get c1 (u "benchmarks") (JArr [])))
         (render_section py_repr (u "Datasets")
            (dict_get c1 (u "datasets") (JArr []))).
Proof.
  intro H. rewrite !final_markdown_run. cbn [fst].
  unfold section_of, py_get. cbn [bind].
  rewrite !H by (simpl; auto). split; reflexivity.
Qed.

Definition catalog_one : dict :=
  [(u "papers", JArr [entry_a; entry_b]); (u "notes", JNull)].

Definition catalog_two : dict :=
  [(u "benchmarks", JArr []); (u "papers", JArr [entry_a; entry_b])].

Lemma document_depends_on_categories_witness :
  fst (final_markdown no_repr (JObj catalog_one))
  = fst (final_markdown no_repr (JObj catalog_two))
  /\ fst (final_markdown no_repr (JObj catalog_one))
     = document
         (render_section no_repr (u "Papers")
            (dict_get catalog_one (u "papers") (JArr [])))
         (render_section no_repr (u "Benchmarks")
            (dict_get catalog_one (u "benchmarks") (JArr [])))
         (render_section no_repr (u "Datasets")
            (dict_get catalog_one (u "datasets") (JArr []))).
Proof.
  apply (document_depends_on_categories no_repr catalog_one catalog_two).
  intros k [<-|[<-|[<-|[]]]]; reflexivity.
Defined.

(** C10: defaults stand in for absent keys only.  A [title], [url] or
    [venue] that is present with the value null is rendered as the text of
    null, "None", and not as its default. *)
Theorem null_fields_rendered_verbatim (py_repr : json -> str) (d : dict) :
  keywords_ok d = true ->
  exists title venue url badges keywords,
    _format_entry py_repr (JObj d)
    = Ok (entry_line title venue url badges keywords)
    /\ (lookup d (u "title") = Some JNull -> title = u "None")
    /\ (lookup d (u "url") = Some JNull -> url = u "None")
    /\ (lookup d (u "venue") = Some JNull -> venue = u "None").
Proof.
  intro K. destruct (format_entry_eq py_repr d K) as (badges & _ & E).
  do 5 eexists. split; [exact E|].
  unfold dict_get. repeat split; intros ->; reflexivity.
Qed.

Lemma null_fields_rendered_verbatim_witness :
  exists title venue url badges keywords,
    _format_entry no_repr nulls
    = Ok (entry_line title venue url badges keywords)
    /\ (lookup [(u "title", JNull); (u "url", JNull); (u "venue", JNull)]
          (u "title") = Some JNull -> title = u "None")
    /\ (lookup [(u "title", JNull); (u "url", JNull); (u "venue", JNull)]
          (u "url") = Some JNull -> url = u "None")
    /\ (lookup [(u "title", JNull); (u "url", JNull); (u "venue", JNull)]
          (u "venue") = Some JNull -> venue = u "None").
Proof.
  apply (null_fields_rendered_verbatim no_repr
           [(u "title", JNull); (u "url", JNull); (u "venue", JNull)]).
  reflexivity.
Defined.

Example nulls_rendered :
  _format_entry no_repr nulls = Ok (u "**None** <br> [`None`](None)  <br> <br> ").
Proof. reflexivity. Qed.

(** * Further properties *)

(** ** Order of the rendered entries *)

(** X1: newest first.  In a rendered section an entry whose parsed date is
    later than that of another entry stands before it. *)
Theorem newer_entries_first
  (py_repr : json -> str) (title key : str) (d : dict) (l : list json) :
  lookup d key = Some (JArr l) -> l <> [] -> forallb entry_ok l = true ->
  exists sorted,
    section_order py_repr title key d sorted
    /\ forall i j x y,
        nth_error sorted i = Some x -> nth_error sorted j = Some y ->
        date_ltb (entry_date x) (entry_date y) = true -> (j < i)%nat.
Proof.
  intros L N T. exists (sorted_by_date l).
  split; [now apply generate_section_sorted|].
  intros i j x y Hi Hj Lt.
  destruct (Nat.lt_trichotomy j i) as [H|[H|H]]; [exact H| |].
  - subst. rewrite Hi in Hj. inversion Hj; subst.
    rewrite date_ltb_irrefl in Lt. discriminate.
  - pose proof (StronglySorted_nth _ _ (sorted_by_date_descending l)
                  _ _ _ _ Hi Hj H) as G.
    unfold not_earlier, date_geb in G. rewrite Lt in G. discriminate.
Qed.

Lemma newer_entries_first_witness :
  exists sorted,
    section_order no_repr (u "Papers") (u "papers")
      [(u "papers", JArr [entry_a; entry_b])] sorted
    /\ forall i j x y,
        nth_error sorted i = Some x -> nth_error sorted j = Some y ->
        date_ltb (entry_date x) (entry_date y) = true -> (j < i)%nat.
Proof.
  apply (newer_entries_first no_repr (u "Papers") (u "papers")
           [(u "papers", JArr [entry_a; entry_b])] [entry_a; entry_b]);
    [reflexivity | discriminate | reflexivity].
Defined.

(** A list in descending order of date is determined by its items when
    their dates are pairwise distinct. *)
Lemma descending_unique (s1 s2 : list json) :
  StronglySorted not_earlier s1 -> StronglySorted not_earlier s2 ->
  Permutation s1 s2 -> NoDup (map entry_date s1) -> s1 = s2.
Proof.
  revert s2. induction s1 as [|a r IH]; intros s2 S1 S2 P D.
  - apply Permutation_nil in P. now subst.
  - destruct s2 as [|b r2].
    { apply Permutation_sym, Permutation_nil in P. discriminate. }
    inversion S1 as [|? ? Sr Fr]; inversion S2 as [|? ? Sr2 Fr2]; subst.
    inversion D as [|? ? Na Dr]; subst.
    rewrite Forall_forall in Fr, Fr2.
    assert (E : a = b).
    { assert (Ia : In a (b :: r2))
        by (eapply Permutation_in; [exact P | now left]).
      assert (Ib : In b (a :: r))
        by (eapply Permutation_in; [symmetry; exact P | now left]).
      destruct Ia as [->|Ia]; [reflexivity|].
      destruct Ib as [->|Ib]; [reflexivity|].
      exfalso. apply Na.
      rewrite (date_geb_antisym _ _ (Fr b Ib) (Fr2 a Ia)).
      now apply in_map. }
    subst b. f_equal. apply IH; try assumption.
    eapply Permutation_cons_inv; eassumption.
Qed.

Lemma keyed_non_obj (x : json) :
  is_obj x = false -> keyed x = Raise AttributeError.
Proof. now destruct x. Qed.

Lemma keyed_obj (x : json) : is_obj x = true -> keyed x = Ok (decorate x).
Proof. intro H. unfold keyed. now rewrite (sort_key_obj _ H). Qed.

(** The key function fails on the first item that is not an object. *)
Lemma mapM_keyed_non_obj (l : list json) :
  Exists (fun x => is_obj x = false) l -> mapM keyed l = Raise AttributeError.
Proof.
  induction l as [|x r IH]; intro E; [inversion E|]. simpl.
  destruct (is_obj x) eqn:O.
  - rewrite (keyed_obj _ O). cbn [bind]. rewrite IH; [reflexivity|].
    inversion E; subst; [congruence | assumption].
  - now rewrite (keyed_non_obj _ O).
Qed.

Lemma all_or_some_non_obj (l : list json) :
  Forall (fun x => is_obj x = true) l \/ Exists (fun x => is_obj x = false) l.
Proof.
  induction l as [|x r [IH|IH]]; [left; constructor | |].
  - destruct (is_obj x) eqn:O; [left | right]; now constructor.
  - right. now apply Exists_cons_tl.
Qed.

Lemma sort_entries_perm_distinct (l1 l2 : list json) :
  Permutation l1 l2 -> NoDup (map entry_date l1) ->
  sort_entries l1 = sort_entries l2.
Proof.
  intros P D. destruct (all_or_some_non_obj l1) as [O|O].
  - assert (O2 : Forall (fun x => is_obj x = true) l2)
      by (eapply Permutation_Forall; eassumption).
    rewrite (sort_entries_objs _ O), (sort_entries_objs _ O2). f_equal.
    apply descending_unique; try apply sorted_by_date_descending.
    + now rewrite !sorted_by_date_perm.
    + eapply Permutation_NoDup; [|exact D].
      apply Permutation_map. symmetry. apply sorted_by_date_perm.
  - assert (O2 : Exists (fun x => is_obj x = false) l2).
    { apply Exists_exists in O. destruct O as (x & Hx & Ox).
      apply Exists_exists. exists x. split; [|exact Ox].
      eapply Permutation_in; eassumption. }
    unfold sort_entries.
    now rewrite (mapM_keyed_non_obj _ O), (mapM_keyed_non_obj _ O2).
Qed.

(** X2: when the parsed dates of a category are pairwise distinct, the
    order in which the entries are listed in the catalog has no effect:
    two lists with the same entries sort to the same list and are rendered
    to the same section, or fail alike. *)
Theorem listing_order_irrelevant
  (py_repr : json -> str) (title : str) (l1 l2 : list json) :
  Permutation l1 l2 -> NoDup (map entry_date l1) ->
  sort_entries l1 = sort_entries l2
  /\ render_section py_repr title (JArr l1)
     = render_section py_repr title (JArr l2).
Proof.
  intros P D.
  pose proof (sort_entries_perm_distinct _ _ P D) as E.
  split; [exact E|].
  unfold render_section, py_sort. rewrite E.
  destruct l1 as [|x1 r1], l2 as [|x2 r2]; try reflexivity.
  - apply Permutation_nil in P. discriminate.
  - apply Permutation_sym, Permutation_nil in P. discriminate.
Qed.

Lemma listing_order_irrelevant_witness :
  sort_entries [entry_a; entry_b; undated]
  = sort_entries [undated; entry_b; entry_a]
  /\ render_section no_repr (u "Papers") (JArr [entry_a; entry_b; undated])
     = render_section no_repr (u "Papers") (JArr [undated; entry_b; entry_a]).
Proof.
  apply listing_order_irrelevant.
  - apply perm_trans with [undated; entry_a; entry_b].
    + apply Permutation_sym, (Permutation_cons_append [entry_a; entry_b]).
    + apply perm_skip, perm_swap.
  - vm_compute. repeat constructor; simpl; intuition discriminate.
Defined.

(** ** Generating again *)

Lemma sort_desc_fixed {A} (l : list (datetime * A)) :
  StronglySorted descending l -> sort_desc l = l.
Proof.
  induction l as [|[k x] r IH]; intro S; [reflexivity|].
  inversion S as [|? ? Sr Fr]; subst. simpl. rewrite (IH Sr).
  destruct r as [|[k' y] r']; [reflexivity|]. simpl.
  inversion Fr as [|? ? G _]; subst. unfold descending, date_geb in G.
  simpl in G. apply negb_true_iff in G. now rewrite G.
Qed.

Lemma mapM_keyed_inv (l : list json) (ks : list (datetime * json)) :
  mapM keyed l = Ok ks ->
  l = map snd ks /\ Forall (fun p => keyed (snd p) = Ok p) ks.
Proof.
  revert ks. induction l as [|x r IH]; simpl; intros ks H.
  - inversion H. split; [reflexivity | constructor].
  - destruct (keyed x) as [p|] eqn:K; [|discriminate]. cbn [bind] in H.
    destruct (mapM keyed r) as [ps|]; [|discriminate]. cbn [bind] in H.
    inversion H; subst. destruct (IH ps eq_refl) as [-> F].
    assert (X : snd p = x).
    { unfold keyed in K. destruct (sort_key x); [|discriminate].
      cbn [bind] in K. now inversion K. }
    subst x. split; [reflexivity | now constructor].
Qed.

Lemma mapM_keyed_snd (ks : list (datetime * json)) :
  Forall (fun p => keyed (snd p) = Ok p) ks -> mapM keyed (map snd ks) = Ok ks.
Proof.
  induction 1 as [|p r Hp _ IH]; simpl; [reflexivity|].
  now rewrite Hp, IH.
Qed.

Lemma sort_entries_perm (l s : list json) :
  sort_entries l = Ok s -> Permutation s l.
Proof.
  unfold sort_entries. destruct (mapM keyed l) as [ks|] eqn:K; [|discriminate].
  cbn [bind]. intro H. inversion H; subst.
  destruct (mapM_keyed_inv _ _ K) as [-> _].
  apply Permutation_map, sort_desc_perm.
Qed.

(** Sorting a list that the sort produced leaves it as it is. *)
Lemma sort_entries_idem (l s : list json) :
  sort_entries l = Ok s -> sort_entries s = Ok s.
Proof.
  unfold sort_entries. destruct (mapM keyed l) as [ks|] eqn:K; [|discriminate].
  cbn [bind]. intro H. inversion H; subst.
  destruct (mapM_keyed_inv _ _ K) as [_ F].
  rewrite mapM_keyed_snd.
  - cbn [bind]. now rewrite (sort_desc_fixed _ (sort_desc_sorted ks)).
  - eapply Permutation_Forall; [symmetry; apply sort_desc_perm | exact F].
Qed.

Lemma py_sort_idem (v v' : json) :
  py_sort v = Ok v' -> py_sort v' = Ok v' /\ truthy v' = truthy v.
Proof.
  destruct v; try discriminate. unfold py_sort.
  destruct (sort_entries l) as [s|] eqn:S; [|discriminate]. cbn [bind].
  intro H. inversion H; subst. rewrite (sort_entries_idem _ _ S).
  split; [reflexivity|].
  pose proof (sort_entries_perm _ _ S) as P.
  destruct s, l; try reflexivity.
  - apply Permutation_nil in P. discriminate.
  - apply Permutation_sym, Permutation_nil in P. discriminate.
Qed.

Section Regeneration.

Variable py_repr : json -> str.

Lemma render_section_sorted (title : str) (v v' : json) :
  py_sort v = Ok v' -> truthy v = true ->
  render_section py_repr title v' = render_section py_repr title v.
Proof.
  intros S T. destruct (py_sort_idem _ _ S) as [S' T'].
  unfold render_section. now rewrite T', T, S, S'.
Qed.

(** A section reads the same from the catalog after any category was
    sorted in place. *)
Lemma section_of_sort_in_place (title k k' : str) (data : json) :
  section_of py_repr title k (sort_in_place k' data)
  = section_of py_repr title k data.
Proof.
  unfold section_of.
  destruct (list_eq_dec N.eq_dec k' k) as [->|N];
    [|now rewrite sort_in_place_frame].
  destruct data; try reflexivity. unfold sort_in_place.
  destruct (truthy (dict_get d k (JArr []))) eqn:T; [|reflexivity].
  destruct (py_sort (dict_get d k (JArr []))) as [sorted|] eqn:S;
    [|reflexivity].
  cbn [py_get bind].
  assert (G : dict_get (store d k sorted) k (JArr []) = sorted).
  { unfold dict_get in *. destruct (lookup d k) as [v|] eqn:L.
    - now rewrite (lookup_store_same _ _ sorted _ L).
    - discriminate. }
  rewrite G. now apply render_section_sorted.
Qed.

(** X3: generating again gives the same document.  The catalog that
    [generate] leaves in [self.data], sorted in place, is rendered to the
    same text, or fails with the same exception, as the catalog that was
    loaded. *)
Theorem regenerate_same_document (self : generator) (w : world) :
  fst (final_markdown py_repr (data (snd (fst (generate py_repr self w)))))
  = fst (final_markdown py_repr (data self)).
Proof.
  rewrite generate_data.
  rewrite (final_markdown_run py_repr (data self)). cbn [snd fst].
  destruct (section_of py_repr (u "Papers") (u "papers") (data self)) eqn:P;
    [destruct (section_of py_repr (u "Benchmarks") (u "benchmarks")
                 (data self)) eqn:B|];
    rewrite final_markdown_run; cbn [fst];
    rewrite !section_of_sort_in_place, ?P, ?B; reflexivity.
Qed.

End Regeneration.

(** ** Ill-typed catalogs *)

(** What [join] accepts: a list of strings, a string or a dict. *)
Definition joinable (v : json) : bool :=
  match v with
  | JArr l => forallb is_str l
  | JStr _ | JObj _ => true
  | _ => false
  end.

Lemma mapM_as_str_raises (l : list json) :
  forallb is_str l = false -> mapM as_str l = Raise TypeError.
Proof.
  induction l as [|v r IH]; simpl; [discriminate|].
  destruct v; simpl; try reflexivity.
  intro H. now rewrite (IH H).
Qed.

Lemma py_join_joinable (sep : str) (v : json) :
  if joinable v then exists s, py_join sep v = Ok s
  else py_join sep v = Raise TypeError.
Proof.
  destruct v; simpl; eauto.
  destruct (forallb is_str l) eqn:F.
  - rewrite (mapM_as_str _ F). simpl. eauto.
  - now rewrite (mapM_as_str_raises _ F).
Qed.

(** An entry that renders: an object whose [keywords] can be joined. *)
Definition renders (x : json) : bool :=
  match x with
  | JObj d => joinable (dict_get d (u "keywords") (JArr []))
  | _ => false
  end.

Lemma mapM_raises {A B} (f : A -> result B) (e : exn) (l : list A) :
  Exists (fun x => f x = Raise e) l ->
  Forall (fun x => (exists y, f x = Ok y) \/ f x = Raise e) l ->
  mapM f l = Raise e.
Proof.
  induction l as [|x r IH]; intros E F; [inversion E|].
  inversion F as [|? ? [[y Hy]|Hx] Fr]; subst; simpl.
  - rewrite Hy. cbn [bind]. rewrite IH; [reflexivity| |exact Fr].
    inversion E; subst; [congruence | assumption].
  - now rewrite Hx.
Qed.

Section IllTyped.

Variable py_repr : json -> str.
Variable json_loads : str -> result json.

Local Notation format_entry := (_format_entry py_repr).
Local Notation generate_section := (_generate_section py_repr).

Lemma format_entry_joinable (d : dict) :
  (exists badges, _generate_badges py_repr (JObj d) = Ok badges)
  /\ if joinable (dict_get d (u "keywords") (JArr []))
     then exists block, format_entry (JObj d) = Ok block
     else format_entry (JObj d) = Raise TypeError.
Proof.
  split; [rewrite generate_badges_eq; eauto|].
  pose proof (py_join_joinable (u ", ") (dict_get d (u "keywords") (JArr [])))
    as J.
  unfold _format_entry, py_get. cbn [bind].
  destruct (joinable (dict_get d (u "keywords") (JArr []))).
  - destruct J as [s ->]. cbn [bind]. rewrite generate_badges_eq.
    cbn [bind]. eauto.
  - now rewrite J.
Qed.

(** X4: rendering an entry that is an object fails only through its
    keywords.  It succeeds when [keywords] is absent or is a list of
    strings, a string or an object, and it raises [TypeError] when
    [keywords] is null, a boolean, a number or a list with an item that is
    not a string; whatever the other fields hold, the badges are built
    without an exception. *)
Theorem format_entry_fails_on_keywords_only (d : dict) :
  (exists badges, _generate_badges py_repr (JObj d) = Ok badges)
  /\ if joinable (dict_get d (u "keywords") (JArr []))
     then exists block, format_entry (JObj d) = Ok block
     else format_entry (JObj d) = Raise TypeError.
Proof.
  exact (format_entry_joinable d).
Qed.

Lemma format_entry_renders (x : json) :
  is_obj x = true ->
  if renders x then exists block, format_entry x = Ok block
  else format_entry x = Raise TypeError.
Proof.
  destruct x; try discriminate. intros _.
  apply format_entry_joinable.
Qed.

(** X5: an item of a category list that is not an object makes the sort
    raise [AttributeError] from its key function; the section is not
    rendered and the list keeps the order it was loaded in. *)
Theorem non_object_entry_rejected
  (title key : str) (d : dict) (l : list json) :
  lookup d key = Some (JArr l) ->
  Exists (fun x => is_obj x = false) l ->
  generate_section title key (JObj d) = (Raise AttributeError, JObj d).
Proof.
  intros L E. rewrite generate_section_run.
  unfold sort_in_place, render_section, py_get, dict_get.
  rewrite L. cbn [bind]. unfold py_sort, sort_entries.
  rewrite (mapM_keyed_non_obj _ E). cbn [bind].
  destruct l; [inversion E | reflexivity].
Qed.

(** X6: a category whose value is not a list is skipped when the value is
    falsy (null, false, 0, an empty string or object) and makes the
    section raise [AttributeError] when it is truthy; the catalog is left
    as it is either way. *)
Theorem category_not_a_list (title key : str) (d : dict) (v : json) :
  lookup d key = Some v -> (forall l, v <> JArr l) ->
  generate_section title key (JObj d)
  = (if truthy v then Raise AttributeError else Ok [], JObj d).
Proof.
  intros L N. rewrite generate_section_run.
  unfold sort_in_place, render_section, py_get, dict_get. rewrite L.
  cbn [bind]. destruct (truthy v); [|reflexivity]. cbn [negb].
  destruct v; try reflexivity. now elim (N l).
Qed.

(** X7: when the loaded root is not an object, [generate] prints its
    first line, raises [AttributeError] and writes no file. *)
Theorem root_not_an_object (self : generator) (w : world) :
  is_obj (data self) = false ->
  generate py_repr self w
  = (Raise AttributeError, self,
     mkworld (fs w)
       (stdout w ++ [u "Reading from " ++ json_path self ++ u "..."])).
Proof.
  intro O. unfold generate, final_markdown, bindM.
  rewrite generate_section_run. unfold py_get, sort_in_place.
  destruct self as [jp op dt]. cbn [data] in *.
  destruct dt; try discriminate; reflexivity.
Qed.

(** X8: a paper whose keywords cannot be joined stops the generation with
    [TypeError] after the papers were sorted: no file is written, and
    [self.data] holds the papers in sorted order. *)
Theorem bad_keywords_no_output
  (self : generator) (w : world) (d : dict) (l : list json) :
  data self = JObj d ->
  lookup d (u "papers") = Some (JArr l) ->
  Forall (fun x => is_obj x = true) l ->
  Exists (fun x => renders x = false) l ->
  generate py_repr self w
  = (Raise TypeError,
     set_data self (JObj (store d (u "papers") (JArr (sorted_by_date l)))),
     mkworld (fs w)
       (stdout w ++ [u "Reading from " ++ json_path self ++ u "..."])).
Proof.
  intros D L O E.
  assert (M : mapM format_entry (sorted_by_date l) = Raise TypeError).
  { apply mapM_raises.
    - apply Exists_exists in E. destruct E as (x & Hx & Rx).
      apply Exists_exists. exists x. split.
      + eapply Permutation_in; [symmetry; apply sorted_by_date_perm | exact Hx].
      + rewrite Forall_forall in O.
        pose proof (format_entry_renders x (O x Hx)) as F.
        now rewrite Rx in F.
    - eapply Permutation_Forall; [symmetry; apply sorted_by_date_perm|].
      eapply Forall_impl; [|exact O]. intros x Ox.
      pose proof (format_entry_renders x Ox) as F.
      destruct (renders x); auto. }
  unfold generate, final_markdown, bindM. rewrite D.
  rewrite generate_section_run.
  unfold sort_in_place, render_section, py_get, dict_get.
  rewrite L. cbn [bind]. unfold py_sort.
  rewrite (sort_entries_objs _ O). cbn [bind items].
  destruct l as [|x r]; [inversion E|]. cbn [truthy negb].
  rewrite M. reflexivity.
Qed.

(** The fields that a block is made of. *)
Definition rendered_fields : list str :=
  [u "title"; u "url"; u "venue"; u "keywords"; u "arxiv"; u "github"].

(** X9: the block of an entry is a function of its title, url, venue,
    keywords, arxiv and github: two entries that agree on these are
    rendered alike, whatever their dates and other fields. *)
Theorem block_depends_on_rendered_fields (d1 d2 : dict) :
  (forall k, In k rendered_fields -> lookup d1 k = lookup d2 k) ->
  format_entry (JObj d1) = format_entry (JObj d2).
Proof.
  intro H. unfold _format_entry. rewrite !generate_badges_eq.
  unfold py_get, dict_get.
  rewrite (H (u "title")), (H (u "url")), (H (u "venue")),
    (H (u "keywords")), (H (u "arxiv")), (H (u "github"));
    try reflexivity; simpl; auto 10.
Qed.

End IllTyped.

Lemma non_object_entry_rejected_witness :
  _generate_section no_repr (u "Papers") (u "papers")
    (JObj [(u "papers", JArr [entry_a; JStr (u "B")])])
  = (Raise AttributeError, JObj [(u "papers", JArr [entry_a; JStr (u "B")])]).
Proof.
  apply (non_object_entry_rejected no_repr (u "Papers") (u "papers")
           [(u "papers", JArr [entry_a; JStr (u "B")])]
           [entry_a; JStr (u "B")]);
    [reflexivity | apply Exists_cons_tl, Exists_cons_hd; reflexivity].
Defined.

Lemma category_not_a_list_witness :
  _generate_section no_repr (u "Papers") (u "papers")
    (JObj [(u "papers", JStr (u "none yet"))])
  = (if truthy (JStr (u "none yet")) then Raise AttributeError else Ok [],
     JObj [(u "papers", JStr (u "none yet"))]).
Proof.
  apply (category_not_a_list no_repr (u "Papers") (u "papers")
           [(u "papers", JStr (u "none yet"))] (JStr (u "none yet")));
    [reflexivity | discriminate].
Defined.

Lemma root_not_an_object_witness :
  generate no_repr (mkgen (u "citations.json") (u "README.md") (JArr []))
    empty_world
  = (Raise AttributeError,
     mkgen (u "citations.json") (u "README.md") (JArr []),
     mkworld (fs empty_world)
       (stdout empty_world
          ++ [u "Reading from " ++ u "citations.json" ++ u "..."])).
Proof.
  apply (root_not_an_object no_repr
           (mkgen (u "citations.json") (u "README.md") (JArr []))).
  reflexivity.
Defined.

Lemma bad_keywords_no_output_witness :
  generate no_repr
    (mkgen (u "citations.json") (u "README.md")
       (JObj [(u "papers",
               JArr [entry_a; JObj [(u "keywords", JNull);
                                    (u "date", JStr (u "2024-05-01"))]])]))
    empty_world
  = (Raise TypeError,
     set_data
       (mkgen (u "citations.json") (u "README.md")
          (JObj [(u "papers",
                  JArr [entry_a; JObj [(u "keywords", JNull);
                                       (u "date", JStr (u "2024-05-01"))]])]))
       (JObj (store
                [(u "papers",
                  JArr [entry_a; JObj [(u "keywords", JNull);
                                       (u "date", JStr (u "2024-05-01"))]])]
                (u "papers")
                (JArr (sorted_by_date
                         [entry_a; JObj [(u "keywords", JNull);
                                         (u "date", JStr (u "2024-05-01"))]])))),
     mkworld (fs empty_world)
       (stdout empty_world
          ++ [u "Reading from " ++ u "citations.json" ++ u "..."])).
Proof.
  apply (bad_keywords_no_output no_repr
           (mkgen (u "citations.json") (u "README.md")
              (JObj [(u "papers",
                      JArr [entry_a; JObj [(u "keywords", JNull);
                                           (u "date", JStr (u "2024-05-01"))]])]))
           empty_world
           [(u "papers",
             JArr [entry_a; JObj [(u "keywords", JNull);
                                  (u "date", JStr (u "2024-05-01"))]])]
           [entry_a; JObj [(u "keywords", JNull);
                           (u "date", JStr (u "2024-05-01"))]]).
  - reflexivity.
  - reflexivity.
  - repeat constructor.
  - apply Exists_cons_tl, Exists_cons_hd. reflexivity.
Defined.

Lemma block_depends_on_rendered_fields_witness :
  _format_entry no_repr entry_a
  = _format_entry no_repr
      (JObj [(u "date", JStr (u "1999-12-31")); (u "title", JStr (u "A"));
             (u "note", JBool true)]).
Proof.
  apply (block_depends_on_rendered_fields no_repr
           [(u "title", JStr (u "A")); (u "date", JStr (u "2023-01-01"))]
           [(u "date", JStr (u "1999-12-31")); (u "title", JStr (u "A"));
            (u "note", JBool true)]).
  intros k [<-|[<-|[<-|[<-|[<-|[<-|[]]]]]]]; reflexivity.
Defined.

(** ** The whole run *)


Definition sample_world : world :=
  mkworld (fun p => if str_eqb p (u "citations.json")
                    then Some (File (u "{}")) else None)
          [].



(** X11: when the input exists and [json.load] raises on it, the run ends
    with that exception before anything is printed or written. *)
Theorem malformed_input_no_output
  (py_repr : json -> str) (json_loads : str -> result json)
  (json_path output_path text : str) (e : exn) (w : world) :
  fs w json_path = Some (File text) ->
  json_loads text = Raise e ->
  run py_repr json_loads json_path output_path w = (Raise e, w).
Proof.
  intros F P. unfold run, __init__, _load_data. now rewrite F, P.
Qed.

Lemma malformed_input_no_output_witness :
  run no_repr no_loads (u "citations.json") (u "README.md") sample_world
  = (Raise JSONDecodeError, sample_world).
Proof.
  apply (malformed_input_no_output no_repr no_loads (u "citations.json")
           (u "README.md") (u "{}"));
    reflexivity.
Defined.

(** ** What the date parser accepts *)

(** The least and the greatest number of characters a pattern matches. *)
Fixpoint min_len (r : re) : nat :=
  match r with
  | Lit _ | Rng _ _ | Dig => 1
  | Cat a b => min_len a + min_len b
  | Alt a b => Nat.min (min_len a) (min_len b)
  | Grp _ a => min_len a
  end.

Fixpoint max_len (r : re) : nat :=
  match r with
  | Lit _ | Rng _ _ | Dig => 1
  | Cat a b => max_len a + max_len b
  | Alt a b => Nat.max (max_len a) (max_len b)
  | Grp _ a => max_len a
  end.

Lemma rmatch_consumes (r : re) (s : str) (m : list (group * str) * str) :
  In m (rmatch r s) ->
  exists pre,
    s = pre ++ snd m
    /\ (min_len r <= List.length pre <= max_len r)%nat.
Proof.
  revert s m. induction r; intros s m H; simpl in H.
  - destruct s as [|x t]; [contradiction|].
    destruct (x =? c)%N; [|contradiction]. destruct H as [<-|[]].
    exists [x]. simpl. split; [reflexivity | lia].
  - destruct s as [|x t]; [contradiction|].
    destruct ((lo <=? x)%N && (x <=? hi)%N); [|contradiction].
    destruct H as [<-|[]]. exists [x]. simpl. split; [reflexivity | lia].
  - destruct s as [|x t]; [contradiction|].
    destruct (decimal x); [|contradiction]. destruct H as [<-|[]].
    exists [x]. simpl. split; [reflexivity | lia].
  - apply in_flat_map in H. destruct H as (m1 & H1 & H2).
    apply in_map_iff in H2. destruct H2 as (m2 & <- & H2).
    destruct (IHr1 _ _ H1) as (p1 & E1 & B1).
    destruct (IHr2 _ _ H2) as (p2 & E2 & B2).
    exists (p1 ++ p2). cbn [snd min_len max_len]. split.
    + now rewrite <- app_assoc, <- E2.
    + rewrite length_app. lia.
  - apply in_app_or in H. cbn [min_len max_len].
    destruct H as [H|H]; [destruct (IHr1 _ _ H) as (p & E & B)
                         | destruct (IHr2 _ _ H) as (p & E & B)];
      exists p; (split; [exact E | lia]).
  - apply in_map_iff in H. destruct H as (m0 & <- & H).
    destruct (IHr _ _ H) as (p & E & B). exists p. now split.
Qed.

Lemma strptime_str_raises (s : str) (e : exn) :
  strptime (JStr s) = Raise e -> e = ValueError.
Proof.
  intro H. destruct (strptime_raises _ _ H) as [->| ->]; [reflexivity|].
  exfalso. revert H. unfold strptime.
  destruct (rmatch format_regex s) as [|[caps rest] ?]; [discriminate|].
  destruct rest; [|discriminate]. unfold bind.
  destruct (py_int (capture GY caps)) eqn:EY;
    [|intro H; inversion H; subst; apply py_int_raises in EY; discriminate].
  destruct (py_int (capture Gm caps)) eqn:EM;
    [|intro H; inversion H; subst; apply py_int_raises in EM; discriminate].
  destruct (py_int (capture Gd caps)) eqn:ED;
    [|intro H; inversion H; subst; apply py_int_raises in ED; discriminate].
  intro H. apply make_datetime_raises in H. discriminate.
Qed.

Lemma strptime_length (s : str) (t : datetime) :
  strptime (JStr s) = Ok t -> (8 <= List.length s <= 10)%nat.
Proof.
  unfold strptime.
  destruct (rmatch format_regex s) as [|[caps rest] more] eqn:E;
    [discriminate|].
  destruct rest; [|discriminate]. intros _.
  assert (I : In (caps, []) (rmatch format_regex s))
    by (rewrite E; now left).
  apply rmatch_consumes in I. destruct I as (pre & -> & B).
  cbn [snd]. rewrite app_nil_r.
  change (min_len format_regex) with 8%nat in B.
  change (max_len format_regex) with 10%nat in B. exact B.
Qed.

(** X12: a date string is accepted only if it has 8 to 10 characters.  A
    shorter or longer string, such as a date followed by a time of day,
    is parsed to the minimum date like a missing date. *)
Theorem date_of_other_length_invalid (s : str) :
  (List.length s < 8 \/ 10 < List.length s)%nat ->
  strptime (JStr s) = Raise ValueError
  /\ _parse_date (JStr s) = Ok datetime_min.
Proof.
  intro L. destruct (strptime (JStr s)) as [t|e] eqn:E.
  - apply strptime_length in E. lia.
  - rewrite (parse_date_failed _ _ E).
    now rewrite (strptime_str_raises _ _ E).
Qed.

Lemma date_of_other_length_invalid_witness :
  strptime (JStr (u "2023-01-01T12:00:00")) = Raise ValueError
  /\ _parse_date (JStr (u "2023-01-01T12:00:00")) = Ok datetime_min.
Proof.
  apply date_of_other_length_invalid. right. vm_compute. lia.
Defined.

(** A date of the calendar, in the years 1 to 9999. *)
Definition is_calendar_date (t : datetime) : bool :=
  ((1 <=? year t) && (year t <=? 9999))
  && ((1 <=? month t) && (month t <=? 12))
  && ((1 <=? day t) && (day t <=? days_in_month (year t) (month t))).

Lemma make_datetime_calendar (y m d : Z) (t : datetime) :
  make_datetime y m d = Ok t -> is_calendar_date t = true.
Proof.
  unfold make_datetime, is_calendar_date.
  destruct ((1 <=? y) && (y <=? 9999)) eqn:Ey; simpl; [|discriminate].
  destruct ((1 <=? m) && (m <=? 12)) eqn:Em; simpl; [|discriminate].
  destruct ((1 <=? d) && (d <=? days_in_month y m)) eqn:Ed; simpl;
    [|discriminate].
  intro H. inversion H; subst. simpl. now rewrite Ey, Em, Ed.
Qed.

Lemma make_datetime_ok (y m d : Z) :
  is_calendar_date (mkdate y m d) = true ->
  make_datetime y m d = Ok (mkdate y m d).
Proof.
  unfold make_datetime, is_calendar_date. simpl. intro H.
  apply andb_prop in H. destruct H as [H Hd].
  apply andb_prop in H. destruct H as [Hy Hm].
  now rewrite Hy, Hm, Hd.
Qed.

Lemma strptime_calendar (v : json) (t : datetime) :
  strptime v = Ok t -> is_calendar_date t = true.
Proof.
  unfold strptime. destruct v; try discriminate.
  destruct (rmatch format_regex s) as [|[caps rest] ?]; [discriminate|].
  destruct rest; [|discriminate].
  unfold bind.
  destruct (py_int (capture GY caps)); [|discriminate].
  destruct (py_int (capture Gm caps)); [|discriminate].
  destruct (py_int (capture Gd caps)); [|discriminate].
  apply make_datetime_calendar.
Qed.

(** X13: every date the parser returns is a date of the calendar: a year
    from 1 to 9999, a month from 1 to 12 and a day that the month has in
    that year. *)
Theorem parsed_dates_are_calendar_dates (v : json) :
  exists t, _parse_date v = Ok t /\ is_calendar_date t = true.
Proof.
  destruct (strptime v) as [t|e] eqn:E.
  - exists t. rewrite (parse_date_ok _ _ E).
    split; [reflexivity | eapply strptime_calendar; eassumption].
  - exists datetime_min. rewrite (parse_date_failed _ _ E). now split.
Qed.

(** ** Reading back a written date *)

(** The ASCII digit of a number from 0 to 9. *)
Definition digit (n : Z) : N := (48 + Z.to_N n)%N.

Definition two_digits (n : Z) : str := [digit (n / 10); digit (n mod 10)].

Definition four_digits (n : Z) : str :=
  [digit (n / 1000); digit (n / 100 mod 10); digit (n / 10 mod 10);
   digit (n mod 10)].

(** A month or a day, with its leading zero when [pad] is set. *)
Definition field_text (pad : bool) (n : Z) : str :=
  if pad || (10 <=? n) then two_digits n else [digit n].

(** A date written as year, month and day with dashes between them; with
    both paddings this is the text YYYY-MM-DD. *)
Definition date_text (pad_month pad_day : bool) (t : datetime) : str :=
  four_digits (year t)
    ++ ch "-" :: field_text pad_month (month t)
    ++ ch "-" :: field_text pad_day (day t).

(** The pattern after the year. *)
Definition date_tail_re : re :=
  Cat (Lit (ch "-")) (Cat re_m (Cat (Lit (ch "-")) re_d)).

(** The month and the day that the first match reads from what follows
    the year, when it leaves nothing unread. *)
Definition tail_parse (s : str) : option (Z * Z) :=
  match rmatch date_tail_re s with
  | (caps, []) :: _ =>
      match py_int (capture Gm caps), py_int (capture Gd caps) with
      | Ok m, Ok d => Some (m, d)
      | _, _ => None
      end
  | _ => None
  end.

Definition zrange (lo n : nat) : list Z := map Z.of_nat (seq lo n).

Lemma in_zrange (lo n : nat) (z : Z) :
  Z.of_nat lo <= z < Z.of_nat (lo + n) -> In z (zrange lo n).
Proof.
  intro H. unfold zrange. apply in_map_iff. exists (Z.to_nat z).
  split; [lia|]. apply in_seq. lia.
Qed.

Definition tail_check (pm pd : bool) (m d : Z) : bool :=
  match tail_parse (ch "-" :: field_text pm m ++ ch "-" :: field_text pd d)
  with
  | Some (m', d') => (m' =? m) && (d' =? d)
  | None => false
  end.

Definition tail_checks : bool :=
  forallb (fun pm =>
    forallb (fun pd =>
      forallb (fun m => forallb (tail_check pm pd m) (zrange 1 31))
              (zrange 1 12))
      [true; false])
    [true; false].

Lemma tail_checks_hold : tail_checks = true.
Proof. vm_compute. reflexivity. Qed.

Lemma tail_parse_fields (pm pd : bool) (m d : Z) :
  1 <= m <= 12 -> 1 <= d <= 31 ->
  tail_parse (ch "-" :: field_text pm m ++ ch "-" :: field_text pd d)
  = Some (m, d).
Proof.
  intros Hm Hd. pose proof tail_checks_hold as C. unfold tail_checks in C.
  rewrite forallb_forall in C.
  assert (Ipm : In pm [true; false]) by (destruct pm; simpl; auto).
  assert (Ipd : In pd [true; false]) by (destruct pd; simpl; auto).
  specialize (C pm Ipm). rewrite forallb_forall in C.
  specialize (C pd Ipd). rewrite forallb_forall in C.
  specialize (C m (in_zrange 1 12 m ltac:(lia))).
  rewrite forallb_forall in C.
  specialize (C d (in_zrange 1 31 d ltac:(lia))).
  unfold tail_check in C.
  destruct (tail_parse _) as [[m' d']|]; [|discriminate].
  apply andb_prop in C. destruct C as [Em Ed].
  apply Z.eqb_eq in Em, Ed. now subst.
Qed.

Lemma decimal_digit (n : Z) : 0 <= n <= 9 -> decimal (digit n) = Some n.
Proof.
  intro H.
  assert (C : forallb (fun k => match decimal (digit k) with
                                | Some v => v =? k
                                | None => false
                                end) (zrange 0 10) = true)
    by (vm_compute; reflexivity).
  rewrite forallb_forall in C.
  specialize (C n (in_zrange 0 10 n ltac:(lia))).
  destruct (decimal (digit n)); [|discriminate].
  apply Z.eqb_eq in C. now subst.
Qed.

Lemma digit_not_blank (n : Z) : (digit n =? ch " ")%N = false.
Proof.
  apply N.eqb_neq. unfold digit. change (ch " ") with 32%N. lia.
Qed.

Lemma rmatch_digits4 (x1 x2 x3 x4 : N) (tl : str) :
  decimal x1 <> None -> decimal x2 <> None ->
  decimal x3 <> None -> decimal x4 <> None ->
  rmatch (Cat Dig (Cat Dig (Cat Dig Dig))) (x1 :: x2 :: x3 :: x4 :: tl)
  = [([], tl)].
Proof.
  intros H1 H2 H3 H4. cbn [rmatch].
  destruct (decimal x1); [|congruence]. cbn [flat_map map fst snd app].
  destruct (decimal x2); [|congruence]. cbn [flat_map map fst snd app].
  destruct (decimal x3); [|congruence]. cbn [flat_map map fst snd app].
  destruct (decimal x4); [|congruence]. reflexivity.
Qed.

Lemma rmatch_Y (x1 x2 x3 x4 : N) (tl : str) :
  decimal x1 <> None -> decimal x2 <> None ->
  decimal x3 <> None -> decimal x4 <> None ->
  rmatch re_Y (x1 :: x2 :: x3 :: x4 :: tl) = [([(GY, [x1; x2; x3; x4])], tl)].
Proof.
  intros H1 H2 H3 H4. unfold re_Y.
  change (rmatch (Grp GY ?a) ?s)
    with (map (fun m => ((GY, firstn (List.length s - List.length (snd m)) s)
                           :: fst m, snd m))
              (rmatch a s)).
  rewrite rmatch_digits4 by assumption. cbn [map fst snd].
  replace (List.length (x1 :: x2 :: x3 :: x4 :: tl) - List.length tl)%nat
    with 4%nat by (cbn [List.length]; lia).
  reflexivity.
Qed.

Lemma strptime_year_tail (x1 x2 x3 x4 : N) (tail : str) (m d : Z) :
  decimal x1 <> None -> decimal x2 <> None ->
  decimal x3 <> None -> decimal x4 <> None ->
  tail_parse tail = Some (m, d) ->
  strptime (JStr (x1 :: x2 :: x3 :: x4 :: tail))
  = (y <- py_int [x1; x2; x3; x4] ;; make_datetime y m d).
Proof.
  intros H1 H2 H3 H4 T. unfold strptime.
  change format_regex with (Cat re_Y date_tail_re).
  change (rmatch (Cat ?a ?b) ?s)
    with (flat_map (fun m1 =>
                      map (fun m2 => (fst m1 ++ fst m2, snd m2))
                          (rmatch b (snd m1)))
                   (rmatch a s)).
  rewrite rmatch_Y by assumption. cbn [flat_map fst snd].
  unfold tail_parse in T.
  destruct (rmatch date_tail_re tail) as [|[caps rest] more]; [discriminate|].
  destruct rest; [|discriminate]. cbn [map app fst snd capture].
  destruct (py_int (capture Gm caps)); [|discriminate].
  destruct (py_int (capture Gd caps)); [|discriminate].
  inversion T; subst. reflexivity.
Qed.

Lemma py_int_four_digits (y : Z) :
  0 <= y <= 9999 -> py_int (four_digits y) = Ok y.
Proof.
  intro H. unfold py_int, four_digits. cbn [skip_spaces].
  rewrite digit_not_blank. cbn [digits_value].
  rewrite !decimal_digit by (Z.div_mod_to_equations; lia).
  f_equal. Z.div_mod_to_equations. lia.
Qed.

Lemma days_in_month_le (y m : Z) : days_in_month y m <= 31.
Proof.
  unfold days_in_month.
  repeat match goal with |- context [if ?b then _ else _] => destruct b end;
    lia.
Qed.

(** X14: a date of the calendar written as YYYY-MM-DD is read back as
    that date, also when the month or the day is written without its
    leading zero; no such entry is taken for undated. *)
Theorem written_dates_read_back (pad_month pad_day : bool) (t : datetime) :
  is_calendar_date t = true ->
  strptime (JStr (date_text pad_month pad_day t)) = Ok t
  /\ _parse_date (JStr (date_text pad_month pad_day t)) = Ok t.
Proof.
  intro C.
  assert (S : strptime (JStr (date_text pad_month pad_day t)) = Ok t).
  { destruct t as [y m d]. pose proof C as B.
    unfold is_calendar_date in B. cbn [year month day] in B.
    apply andb_prop in B. destruct B as [B Bd].
    apply andb_prop in B. destruct B as [By Bm].
    apply andb_prop in By, Bm, Bd.
    destruct By as [By1 By2], Bm as [Bm1 Bm2], Bd as [Bd1 Bd2].
    apply Z.leb_le in By1, By2, Bm1, Bm2, Bd1, Bd2.
    pose proof (days_in_month_le y m) as D31.
    unfold date_text. cbn [year month day].
    unfold four_digits at 1. cbn [app].
    rewrite (strptime_year_tail _ _ _ _ _ m d);
      try (rewrite decimal_digit by (Z.div_mod_to_equations; lia);
           discriminate).
    - change [digit (y / 1000); digit (y / 100 mod 10);
              digit (y / 10 mod 10); digit (y mod 10)]
        with (four_digits y).
      rewrite py_int_four_digits by lia. cbn [bind].
      now apply make_datetime_ok.
    - apply tail_parse_fields; lia. }
  split; [exact S | now apply parse_date_ok].
Qed.

Lemma written_dates_read_back_witness :
  strptime (JStr (date_text true false (mkdate 2024 2 29)))
  = Ok (mkdate 2024 2 29)
  /\ _parse_date (JStr (date_text true false (mkdate 2024 2 29)))
     = Ok (mkdate 2024 2 29).
Proof.
  apply written_dates_read_back. reflexivity.
Defined.

Example date_text_samples :
  date_text true true (mkdate 2024 2 9) = u "2024-02-09"
  /\ date_text false false (mkdate 2024 2 9) = u "2024-2-9"
  /\ date_text true true (mkdate 987 11 30) = u "0987-11-30".
Proof. repeat split. Qed.
